(** * Dashboard Amazonia: filter -> derive -> visualize

    A shallow embedding of [streamlit_dashboard.py] and the properties
    its specification states about it.

    Conventions of the embedding:
    - the [data] column holds calendar dates, modelled as day numbers in
      [Z]; [pd.to_datetime] of a date picked in the side bar is that
      same day number;
    - the real-valued columns of the script are exact rationals ([Q]);
      the two pandas reductions whose results hinge on the rounding of
      binary floating point, the rolling mean and the correlation, are
      given a second time as their float64 kernels in [Float64], over
      the primitive binary64 numbers;
    - the 0/1 encoded columns are [bool];
    - a column that a data frame may lack is an [option] field of the
      row, and the frame's [columns] lists the names that are present;
    - a data frame is a Python object: it lives in a store and variables
      hold references to it, so that in-place updates are visible through
      every alias. *)

From Stdlib Require Import List ZArith QArith Qabs Qminmax Bool String Lia Lqa.
From Stdlib Require Import Permutation Sorted Reals Qreals Lra.
From Stdlib Require PrimFloat FloatOps Uint63.
Import ListNotations.

Set Implicit Arguments.

Open Scope string_scope.
Open Scope list_scope.

(* ================================================================== *)
(** ** Data frames *)
(* ================================================================== *)

Module Pandas.

Definition Timestamp := Z.

(** One line of [dados_integrados.csv]. *)
Record Row := mkRow {
  data : Timestamp;
  chuvas_reais_mm : Q;
  anomalia_chuva_mm : Q;
  volume_producao_tons : Q;
  incidencia_doencas : Q;
  acesso_agua_potavel : bool;
  indice_vulnerabilidade : Q;
  indicador_seguranca_alimentar : Q;
  chuva_rol_30d : option Q;
  producao_rol_7d : option Q;
  variacao_climatica : option bool;
  flag_incidente_alta : option bool;
  agua_label : option string
}.

Record DataFrame := mkDF {
  columns : list string;
  rows : list Row
}.

(** [c in df.columns] *)
Definition has_column (df : DataFrame) (c : string) : bool :=
  existsb (String.eqb c) (columns df).

(** [len(df)] *)
Definition len (df : DataFrame) : nat := List.length (rows df).

(** [df.empty]: some axis has length 0. *)
Definition empty (df : DataFrame) : bool :=
  match rows df, columns df with
  | [], _ => true
  | _, [] => true
  | _, _ => false
  end.

(** [df.copy()] builds a new frame with the same contents. *)
Definition copy (df : DataFrame) : DataFrame :=
  mkDF (columns df) (rows df).

(** [df[mask]] with a boolean mask computed row by row. *)
Definition getitem_mask (df : DataFrame) (mask : Row -> bool) : DataFrame :=
  mkDF (columns df) (filter mask (rows df)).

(** [series == 1] on a 0/1 column that may be absent: a missing value
    compares unequal. *)
Definition eq_one (v : option bool) : bool :=
  match v with
  | Some b => b
  | None => false
  end.


(** *** Sorting: [df.sort_values("data")]

    Rows are put in ascending order of [data]; rows of equal date keep
    the order they have in the frame. *)
Fixpoint insert_by_data (r : Row) (l : list Row) : list Row :=
  match l with
  | [] => [r]
  | h :: t =>
      if (data r <=? data h)%Z then r :: l else h :: insert_by_data r t
  end.

Definition sort_rows (l : list Row) : list Row :=
  fold_right insert_by_data [] l.

Definition sort_values_data (df : DataFrame) : DataFrame :=
  mkDF (columns df) (sort_rows (rows df)).

(** *** Reductions of a column: [series.min()], [series.max()]

    The minimum or maximum of a column with no row is a missing value. *)
Definition min_datas (l : list Timestamp) : option Timestamp :=
  match l with
  | [] => None
  | x :: xs => Some (fold_right Z.min x xs)
  end.

Definition max_datas (l : list Timestamp) : option Timestamp :=
  match l with
  | [] => None
  | x :: xs => Some (fold_right Z.max x xs)
  end.

Definition min_reais (l : list Q) : option Q :=
  match l with
  | [] => None
  | x :: xs => Some (fold_right Qmin x xs)
  end.

Definition max_reais (l : list Q) : option Q :=
  match l with
  | [] => None
  | x :: xs => Some (fold_right Qmax x xs)
  end.

(** *** Element-wise arithmetic and reductions of numpy *)

Definition Qsum (l : list Q) : Q := fold_right Qplus 0%Q l.

Definition Qlen (l : list Q) : Q := inject_Z (Z.of_nat (List.length l)).

(** [np.mean(a)] *)
Definition np_mean (l : list Q) : Q := (Qsum l / Qlen l)%Q.

(** [np.clip(a, lo, hi)] is [minimum(maximum(a, lo), hi)], element-wise. *)
Definition clip1 (lo hi x : Q) : Q := Qmin (Qmax x lo) hi.

Definition np_clip (l : list Q) (lo hi : Q) : list Q := map (clip1 lo hi) l.

(** [np.abs(a)] *)
Definition np_abs (l : list Q) : list Q := map Qabs l.

(** [a / c] and [c - a] for a scalar [c] *)
Definition div_scalar (l : list Q) (c : Q) : list Q :=
  map (fun x => x / c)%Q l.

Definition rsub_scalar (c : Q) (l : list Q) : list Q :=
  map (fun x => c - x)%Q l.

(** The 0/1 encoding of a flag column. *)
Definition of_flag (b : bool) : Q := if b then 1%Q else 0%Q.

(** *** Rolling mean: [series.rolling(window, min_periods).mean()]

    The windows are [start i = max 0 (i + 1 - window)] up to [i]
    included.  Going from one position to the next, the value that
    leaves the window is taken out of the running sum and the new value
    is added; the entry is the running sum over the number of
    observations when there are at least [min_periods] of them, and
    missing otherwise.  Over the rationals the running sum is exact;
    [Float64.rolling_mean] below is the same loop over float64, with
    the compensation terms that pandas keeps. *)
Definition add_mean (v : Q) (st : nat * Q) : nat * Q :=
  (S (fst st), (snd st + v)%Q).

Definition remove_mean (v : Q) (st : nat * Q) : nat * Q :=
  (Nat.pred (fst st), (snd st - v)%Q).

Definition calc_mean (minp : nat) (st : nat * Q) : option Q :=
  if (minp <=? fst st)%nat && (0 <? fst st)%nat
  then Some (snd st / inject_Z (Z.of_nat (fst st)))%Q
  else None.

Fixpoint roll_loop (window minp : nat) (values todo : list Q) (i : nat)
    (st : nat * Q) : list (option Q) :=
  match todo with
  | [] => []
  | v :: todo' =>
      let st1 :=
        if (window <=? i)%nat
        then remove_mean (nth (i - window) values 0%Q) st
        else st in
      let st2 := add_mean v st1 in
      calc_mean minp st2 :: roll_loop window minp values todo' (S i) st2
  end.

Definition rolling_mean (window minp : nat) (values : list Q)
    : list (option Q) :=
  roll_loop window minp values values 0 (0%nat, 0%Q).


(** *** Columns as series *)

(** The dtype of the columns of the file: every column is a number
    except the parsed date and the text label. *)
Definition is_numeric (c : string) : bool :=
  existsb (String.eqb c)
    ["chuvas_reais_mm"; "anomalia_chuva_mm"; "volume_producao_tons";
     "incidencia_doencas"; "acesso_agua_potavel"; "indice_vulnerabilidade";
     "indicador_seguranca_alimentar"; "chuva_rol_30d"; "producao_rol_7d";
     "variacao_climatica"; "flag_incidente_alta"].

(** The number a row holds in column [c]; [None] is a missing value. *)
Definition num_value (c : string) (r : Row) : option Q :=
  if c =? "chuvas_reais_mm" then Some (chuvas_reais_mm r)
  else if c =? "anomalia_chuva_mm" then Some (anomalia_chuva_mm r)
  else if c =? "volume_producao_tons" then Some (volume_producao_tons r)
  else if c =? "incidencia_doencas" then Some (incidencia_doencas r)
  else if c =? "acesso_agua_potavel"
       then Some (of_flag (acesso_agua_potavel r))
  else if c =? "indice_vulnerabilidade"
       then Some (indice_vulnerabilidade r)
  else if c =? "indicador_seguranca_alimentar"
       then Some (indicador_seguranca_alimentar r)
  else if c =? "chuva_rol_30d" then chuva_rol_30d r
  else if c =? "producao_rol_7d" then producao_rol_7d r
  else if c =? "variacao_climatica"
       then option_map of_flag (variacao_climatica r)
  else if c =? "flag_incidente_alta"
       then option_map of_flag (flag_incidente_alta r)
  else None.

(** [df[c]] for a numeric column *)
Definition series (df : DataFrame) (c : string) : list (option Q) :=
  map (num_value c) (rows df).

(** [df.select_dtypes(include=[np.number]).columns] *)
Definition numeric_cols (df : DataFrame) : list string :=
  filter is_numeric (columns df).

(** [series.map({0: l0, 1: l1})] on a 0/1 column *)
Definition map_flag (l0 l1 : string) (col : list bool) : list string :=
  map (fun b : bool => if b then l1 else l0) col.

Definition with_agua_label (r : Row) (s : string) : Row :=
  mkRow (data r) (chuvas_reais_mm r) (anomalia_chuva_mm r)
    (volume_producao_tons r) (incidencia_doencas r)
    (acesso_agua_potavel r) (indice_vulnerabilidade r)
    (indicador_seguranca_alimentar r) (chuva_rol_30d r)
    (producao_rol_7d r) (variacao_climatica r) (flag_incidente_alta r)
    (Some s).

Fixpoint set_labels (l : list Row) (vals : list string) : list Row :=
  match l, vals with
  | r :: l', s :: vals' => with_agua_label r s :: set_labels l' vals'
  | _, _ => l
  end.

(** [df["agua_label"] = vals]: the column is overwritten when it
    exists and appended otherwise. *)
Definition setitem_agua_label (df : DataFrame) (vals : list string)
    : DataFrame :=
  mkDF (if has_column df "agua_label" then columns df
        else columns df ++ ["agua_label"])
       (set_labels (rows df) vals).

(** *** Pearson correlation: [df.corr()]

    For each pair of columns only the rows where both values are
    present are used.  With [sx], [sy] the sums of squared deviations
    from the mean and [cxy] the sum of the products of the deviations,
    the entry is [cxy / sqrt (sx * sy)] when that divisor is not zero
    and a missing value otherwise ([None]).  The sums are exact
    rationals and the square root is taken in the reals;
    [Float64.nancorr] below accumulates the same sums in float64. *)
Fixpoint complete_pairs (xs ys : list (option Q)) : list (Q * Q) :=
  match xs, ys with
  | Some x :: xs', Some y :: ys' => (x, y) :: complete_pairs xs' ys'
  | _ :: xs', _ :: ys' => complete_pairs xs' ys'
  | _, _ => []
  end.

Definition ssqdm (l : list Q) : Q :=
  Qsum (map (fun x => (x - np_mean l) * (x - np_mean l))%Q l).

Definition covsum (ps : list (Q * Q)) : Q :=
  Qsum (map (fun p => (fst p - np_mean (map fst ps))
                      * (snd p - np_mean (map snd ps)))%Q ps).

Definition min_periods_corr : nat := 1.

Definition nancorr (xs ys : list (option Q)) : option R :=
  let ps := complete_pairs xs ys in
  let sx := ssqdm (map fst ps) in
  let sy := ssqdm (map snd ps) in
  if (List.length ps <? min_periods_corr)%nat then None
  else if Qeq_bool (sx * sy) 0 then None
  else Some (Q2R (covsum ps) / sqrt (Q2R (sx * sy)))%R.

Definition corr (df : DataFrame) : list (list (option R)) :=
  let cs := numeric_cols df in
  map (fun a => map (fun b => nancorr (series df a) (series df b)) cs) cs.

End Pandas.

(* ================================================================== *)
(** ** The float64 kernels of the rolling mean and of the correlation *)
(* ================================================================== *)

Module Float64.
Import PrimFloat.


(** The float64 of a count. *)
Definition of_nat (n : nat) : float := of_uint63 (Uint63.of_Z (Z.of_nat n)).

(** *** Rolling mean

    The window functions take infinite values as NaN.  The kernel keeps
    the number of observations, the number of negative ones, a running
    sum with one compensation term for the additions and one for the
    removals (Kahan summation), and the length of the run of equal
    values that ends at the last value added.  A NaN neither enters nor
    leaves the sum. *)
Definition prep_values (values : list float) : list float :=
  map (fun x => if is_infinity x then nan else x) values.

Record MeanState := mkMeanState {
  nobs : nat;
  neg_ct : nat;
  sum_x : float;
  compensation_add : float;
  compensation_remove : float;
  num_consecutive_same_value : nat;
  prev_value : float
}.

Definition add_mean (val : float) (st : MeanState) : MeanState :=
  if (val =? val)%float then
    let y := (val - compensation_add st)%float in
    let t := (sum_x st + y)%float in
    mkMeanState (S (nobs st))
      (if get_sign val then S (neg_ct st) else neg_ct st)
      t
      (t - sum_x st - y)%float
      (compensation_remove st)
      (if (val =? prev_value st)%float
       then S (num_consecutive_same_value st) else 1%nat)
      val
  else st.

Definition remove_mean (val : float) (st : MeanState) : MeanState :=
  if (val =? val)%float then
    let y := (- val - compensation_remove st)%float in
    let t := (sum_x st + y)%float in
    mkMeanState (Nat.pred (nobs st))
      (if get_sign val then Nat.pred (neg_ct st) else neg_ct st)
      t
      (compensation_add st)
      (t - sum_x st - y)%float
      (num_consecutive_same_value st)
      (prev_value st)
  else st.

(** The entry is the running sum over the number of observations; a
    window of equal values gives that value, and a sum whose sign no
    value of the window has gives 0. *)
Definition calc_mean (minp : nat) (st : MeanState) : float :=
  if (minp <=? nobs st)%nat && (0 <? nobs st)%nat then
    let result := (sum_x st / of_nat (nobs st))%float in
    if (nobs st <=? num_consecutive_same_value st)%nat then prev_value st
    else if (neg_ct st =? 0)%nat && (result <? 0)%float then 0%float
    else if (neg_ct st =? nobs st)%nat && (0 <? result)%float then 0%float
    else result
  else nan.

Definition setup (val : float) : MeanState :=
  mkMeanState 0 0 0 0 0 0 val.

(** Position [i] has the window [max 0 (i + 1 - window)] to [i].  The
    state is set up anew at position 0 and whenever the window shares
    no value with the one before it (a window of one value); otherwise
    the value that leaves is removed and the new one added. *)
Fixpoint roll_mean (window minp : nat) (values todo : list float) (i : nat)
    (st : MeanState) : list float :=
  match todo with
  | [] => []
  | val :: todo' =>
      let st1 :=
        if (i =? 0)%nat || (window <=? 1)%nat then setup val
        else if (window <=? i)%nat
             then remove_mean (nth (i - window) values nan) st
             else st in
      let st2 := add_mean val st1 in
      calc_mean minp st2 :: roll_mean window minp values todo' (S i) st2
  end.

(** [series.rolling(window, min_periods).mean()], for [window >= 1]. *)
Definition rolling_mean (window minp : nat) (values : list float)
    : list float :=
  let values := prep_values values in
  roll_mean window minp values values 0 (setup nan).

(** *** Pearson correlation

    One pass over the rows where both values are finite, updating the
    means, the sums of squared deviations and the sum of the products of
    the deviations (Welford's method); the coefficient is kept within
    -1 and 1. *)
Record CorrState := mkCorrState {
  n_pairs : nat;
  meanx : float;
  meany : float;
  ssqdm_x : float;
  ssqdm_y : float;
  covxy : float
}.

Definition corr_step (st : CorrState) (v : float * float) : CorrState :=
  let (vx, vy) := v in
  if is_finite vx && is_finite vy then
    let nobs := S (n_pairs st) in
    let dx := (vx - meanx st)%float in
    let dy := (vy - meany st)%float in
    let mx := (meanx st + 1 / of_nat nobs * dx)%float in
    let my := (meany st + 1 / of_nat nobs * dy)%float in
    mkCorrState nobs mx my
      (ssqdm_x st + (vx - mx) * dx)%float
      (ssqdm_y st + (vy - my) * dy)%float
      (covxy st + (vx - mx) * dy)%float
  else st.

Definition nancorr (minp : nat) (xs ys : list float) : float :=
  let st := fold_left corr_step (combine xs ys) (mkCorrState 0 0 0 0 0 0) in
  if (n_pairs st <? minp)%nat then nan
  else
    let divisor := sqrt (ssqdm_x st * ssqdm_y st)%float in
    if negb (divisor =? 0)%float then
      let val := (covxy st / divisor)%float in
      if (1 <? val)%float then 1%float
      else if (val <? -1)%float then (-1)%float
      else val
    else nan.

End Float64.

(* ================================================================== *)
(** ** The run-time: object store, output and early exit *)
(* ================================================================== *)

Module Streamlit.
Import Pandas.

(** What a chart receives, after the data-shaping done by the script. *)
Inductive Figure :=
| FigLine (x : list Timestamp) (chuva produc : list (option Q))
| FigScatter (x y : list Q) (color : list string)
    (hover : list (Timestamp * Q))
| FigBox (x : list (option string)) (y : list Q)
| FigHeat (labels : list string) (z : list (list (option R)))
| FigRadar (theta : list string) (r : list Q).

(** What the page and its side bar show, in the order of the calls. *)
Inductive Event :=
| Title (msg : string)          (* st.title *)
| Error (msg : string)          (* st.error *)
| SidebarHeader (msg : string)  (* st.sidebar.header *)
| SidebarDateInput (label : string) (value : Timestamp * Timestamp)
    (min_value max_value : Timestamp)          (* st.sidebar.date_input *)
| SidebarError (msg : string)   (* st.sidebar.error *)
| SidebarSlider (label : string) (min_value max_value : Q)
    (value : option Q * option Q) (step : Q)   (* st.sidebar.slider *)
| SidebarSelectbox (label : string) (options : list string)
    (index : nat)                              (* st.sidebar.selectbox *)
| Warning (msg : string)        (* st.warning *)
| Subheader (msg : string)      (* st.subheader *)
| PlotlyChart (fig : Figure)    (* st.plotly_chart *)
| Markdown (msg : string)       (* st.markdown *)
| Caption (msg : string).       (* st.caption *)

Inductive Exn :=
| IndexError        (* tuple index out of range *)
| AttributeError    (* a value without the attribute asked of it *)
| KeyError          (* key absent from a dict *)
| FileNotFoundError (* read_csv on a path that does not exist *)
| ReferenceError    (* a reference to no object *).

Definition loc := nat.

Record State := mkState {
  heap : list DataFrame;
  out : list Event
}.

Inductive Outcome (A : Type) :=
| Ok (a : A) (s : State)
| Stopped (s : State)            (* st.stop() *)
| Raised (e : Exn) (s : State).

Arguments Stopped {A} s.
Arguments Raised {A} e s.

Definition M (A : Type) := State -> Outcome A.

Definition ret {A} (a : A) : M A := fun s => Ok a s.

Definition bind {A B} (m : M A) (k : A -> M B) : M B :=
  fun s =>
    match m s with
    | Ok a s' => k a s'
    | Stopped s' => Stopped s'
    | Raised e s' => Raised e s'
    end.

Definition stop {A} : M A := fun s => Stopped s.
Definition raise {A} (e : Exn) : M A := fun s => Raised e s.

Definition emit (e : Event) : M unit :=
  fun s => Ok tt (mkState (heap s) (out s ++ [e])).

(** A new object gets the next free address. *)
Definition new (df : DataFrame) : M loc :=
  fun s => Ok (List.length (heap s)) (mkState (heap s ++ [df]) (out s)).

Definition deref (l : loc) : M DataFrame :=
  fun s =>
    match nth_error (heap s) l with
    | Some df => Ok df s
    | None => Raised ReferenceError s
    end.

Fixpoint update {A} (l : list A) (n : nat) (x : A) : list A :=
  match l, n with
  | [], _ => []
  | _ :: t, O => x :: t
  | h :: t, S n' => h :: update t n' x
  end.

(** In-place update of the object at [l]. *)
Definition assign (l : loc) (df : DataFrame) : M unit :=
  fun s =>
    match nth_error (heap s) l with
    | Some _ => Ok tt (mkState (update (heap s) l df) (out s))
    | None => Raised ReferenceError s
    end.

Definition when (b : bool) (m : M unit) : M unit :=
  if b then m else ret tt.

End Streamlit.

Declare Scope st_scope.
Delimit Scope st_scope with st.
Notation "x <- m ;; k" := (Streamlit.bind m (fun x => k))
  (at level 61, m at next level, right associativity) : st_scope.
Notation "m ;; k" := (Streamlit.bind m (fun _ => k))
  (at level 61, right associativity) : st_scope.

(* ================================================================== *)
(** ** The script *)
(* ================================================================== *)

Module Dashboard.
Import Pandas Streamlit.
Local Open Scope st_scope.

(** The folder of the app: [dados_integrados.csv] as [read_csv] parses
    it, or nothing when the file does not exist. *)
Record Env := mkEnv {
  dados_integrados : option DataFrame
}.

(** The value of [st.sidebar.date_input]: a date or a tuple of dates. *)
Inductive DateInput :=
| OneDate (d : Z)
| DateTuple (ds : list Z).

(** The options of the two select boxes. *)
Inductive AguaOpcao := AguaTodos | Sim | Nao.
Inductive TipoOpcao := TipoTodos | Climaticos | Socioeconomicos.

(** The values the controls of the side bar return in one run: what
    the user has chosen.  The defaults and bounds the script computes
    from [_df] for them are arguments of the controls, see
    [barra_lateral]. *)
Record Widgets := mkWidgets {
  periodo : DateInput;
  faixa_vul : Q * Q;
  agua_opcao : AguaOpcao;
  tipo_opcao : TipoOpcao
}.

Definition to_datetime (d : Z) : Timestamp := d.

Definition msg_sem_arquivo : string :=
  "Arquivo 'dados_integrados.csv' não encontrado na pasta do app.".
Definition msg_periodo : string :=
  "Data inicial não pode ser maior que final.".
Definition msg_vazio : string :=
  "Nenhum dado encontrado para os filtros selecionados.".

(** [map_agua = {"Sim": 1, "Não": 0}] *)
Definition map_agua (o : AguaOpcao) : option bool :=
  match o with
  | Sim => Some true
  | Nao => Some false
  | AguaTodos => None
  end.

Definition agua_eqb (a b : AguaOpcao) : bool :=
  match a, b with
  | AguaTodos, AguaTodos | Sim, Sim | Nao, Nao => true
  | _, _ => false
  end.

Definition tipo_eqb (a b : TipoOpcao) : bool :=
  match a, b with
  | TipoTodos, TipoTodos | Climaticos, Climaticos
  | Socioeconomicos, Socioeconomicos => true
  | _, _ => false
  end.

(** Lines 53-58: the file is looked for, then read. *)
Definition carregar_dados (env : Env) : M loc :=
  match dados_integrados env with
  | Some d => new d
  | None => raise FileNotFoundError
  end.

Definition carregamento (env : Env) : M loc :=
  when (negb (match dados_integrados env with Some _ => true
              | None => false end))
       (emit (Error msg_sem_arquivo) ;; stop) ;;
  carregar_dados env.

(** Lines 73-79: the bounds of the period, and the advice when they are
    inverted. *)
Definition ler_periodo (p : DateInput) : M (Timestamp * Timestamp) :=
  bounds <- match p with
            | DateTuple ds =>
                match nth_error ds 0, nth_error ds 1 with
                | Some a, Some b => ret (to_datetime a, to_datetime b)
                | _, _ => raise IndexError
                end
            | OneDate d => ret (to_datetime d, to_datetime d)
            end ;;
  when (fst bounds >? snd bounds)%Z (emit (SidebarError msg_periodo)) ;;
  ret bounds.

(** Lines 63-106: the side bar.  The period control gets the first and
    the last date of the data set as its default and its bounds; the
    minimum of a column with no row is a missing value, which has no
    [date()], so that a data set with no record ends the pass here.  The
    slider gets the least and the greatest index as its default.  What
    the controls return is what the user chose, [w]. *)
Definition barra_lateral (_df : loc) (w : Widgets)
    : M (Timestamp * Timestamp) :=
  emit (SidebarHeader "⚙️ Filtros") ;;
  d <- deref _df ;;
  match min_datas (map data (rows d)), max_datas (map data (rows d)) with
  | Some data_min, Some data_max =>
      emit (SidebarDateInput "Período" (data_min, data_max)
              data_min data_max) ;;
      bounds <- ler_periodo (periodo w) ;;
      emit (SidebarSlider "Faixa do Índice de Vulnerabilidade" 0 1
              (min_reais (map indice_vulnerabilidade (rows d)),
               max_reais (map indice_vulnerabilidade (rows d)))
              0.01) ;;
      emit (SidebarSelectbox "Acesso à Água Potável"
              ["Todos"; "Sim"; "Não"] 0) ;;
      emit (SidebarSelectbox "Foco do evento"
              ["Todos"; "Climáticos"; "Socioeconômicos"] 0) ;;
      ret bounds
  | _, _ => raise AttributeError
  end.

(** The masks of lines 112-123. *)
Definition mask_periodo (dt_ini dt_fim : Timestamp) (r : Row) : bool :=
  (dt_ini <=? data r)%Z && (data r <=? dt_fim)%Z.

Definition mask_vul (faixa : Q * Q) (r : Row) : bool :=
  Qle_bool (fst faixa) (indice_vulnerabilidade r)
  && Qle_bool (indice_vulnerabilidade r) (snd faixa).

Definition mask_agua (v : bool) (r : Row) : bool :=
  Bool.eqb (acesso_agua_potavel r) v.

Definition mask_clima (r : Row) : bool := eq_one (variacao_climatica r).
Definition mask_incidente (r : Row) : bool := eq_one (flag_incidente_alta r).

(** [df = df[mask]]: a new frame; the old one is left as it is. *)
Definition select (df : loc) (mask : Row -> bool) : M loc :=
  d <- deref df ;; new (getitem_mask d mask).

(** Lines 111-123. *)
Definition aplicar_filtros (_df : loc) (dt_ini dt_fim : Timestamp)
    (w : Widgets) : M loc :=
  d <- deref _df ;;
  df <- new (copy d) ;;
  df <- select df (mask_periodo dt_ini dt_fim) ;;
  df <- select df (mask_vul (faixa_vul w)) ;;
  df <- (if negb (agua_eqb (agua_opcao w) AguaTodos)
         then match map_agua (agua_opcao w) with
              | Some v => select df (mask_agua v)
              | None => raise KeyError
              end
         else ret df) ;;
  d <- deref df ;;
  (if tipo_eqb (tipo_opcao w) Climaticos
      && has_column d "variacao_climatica"
   then select df mask_clima
   else if tipo_eqb (tipo_opcao w) Socioeconomicos
           && has_column d "flag_incidente_alta"
   then select df mask_incidente
   else ret df).

(** Lines 125-127. *)
Definition parar_se_vazio (df : loc) : M unit :=
  d <- deref df ;;
  when (empty d) (emit (Warning msg_vazio) ;; stop).


(** Lines 134-171: the two smoothed series over the view sorted by date. *)
Definition chuva_rol (df_sorted : DataFrame) : list (option Q) :=
  if has_column df_sorted "chuva_rol_30d"
  then map chuva_rol_30d (rows df_sorted)
  else rolling_mean 30 1 (map chuvas_reais_mm (rows df_sorted)).

Definition producao_rol (df_sorted : DataFrame) : list (option Q) :=
  if has_column df_sorted "producao_rol_7d"
  then map producao_rol_7d (rows df_sorted)
  else rolling_mean 7 1 (map volume_producao_tons (rows df_sorted)).

Definition viz1 (df : loc) : M unit :=
  emit (Subheader "📈 Chuva (30 d) × Produção (7 d) – Médias Móveis") ;;
  d <- deref df ;;
  df_sorted <- new (sort_values_data d) ;;
  ds <- deref df_sorted ;;
  emit (PlotlyChart
          (FigLine (map data (rows ds)) (chuva_rol ds) (producao_rol ds))).

(** Lines 176-191. *)
Definition viz2 (df : loc) : M unit :=
  emit (Subheader "🔄 Anomalia de Chuva × Produção") ;;
  d <- deref df ;;
  emit (PlotlyChart
          (FigScatter
             (map anomalia_chuva_mm (rows d))
             (map volume_producao_tons (rows d))
             (map_flag "Sem água" "Com água"
                (map acesso_agua_potavel (rows d)))
             (map (fun r => (data r, indice_vulnerabilidade r)) (rows d)))).

(** Lines 196-211: the label column is written into the frame that
    [df] refers to. *)
Definition viz3 (df : loc) : M unit :=
  emit (Subheader "💧 Incidência de Doenças vs. Acesso à Água Potável") ;;
  d <- deref df ;;
  assign df
    (setitem_agua_label d
       (map_flag "Sem acesso" "Com acesso"
          (map acesso_agua_potavel (rows d)))) ;;
  d <- deref df ;;
  emit (PlotlyChart
          (FigBox (map agua_label (rows d))
                  (map incidencia_doencas (rows d)))).

(** Lines 216-229. *)
Definition viz4 (df : loc) : M unit :=
  emit (Subheader "📊 Heatmap de Correlação entre Variáveis Numéricas") ;;
  d <- deref df ;;
  emit (PlotlyChart (FigHeat (numeric_cols d) (corr d))).

(** Lines 236-240. *)
Definition comp_clima (df : DataFrame) : Q :=
  np_mean
    (np_clip (div_scalar (np_abs (map anomalia_chuva_mm (rows df))) 200)
             0 1).

Definition comp_prod (df : DataFrame) : Q :=
  np_mean
    (np_clip
       (rsub_scalar 1 (div_scalar (map volume_producao_tons (rows df)) 20))
       0 1).

Definition comp_doencas (df : DataFrame) : Q :=
  np_mean (np_clip (div_scalar (map incidencia_doencas (rows df)) 6) 0 1).

Definition comp_agua (df : DataFrame) : Q :=
  (1 - Qsum (map of_flag (map acesso_agua_potavel (rows df)))
       / inject_Z (Z.of_nat (len df)))%Q.

Definition comp_food (df : DataFrame) : Q :=
  np_mean
    (np_clip
       (rsub_scalar 1
          (div_scalar (map indicador_seguranca_alimentar (rows df)) 100))
       0 1).

(** Lines 242-261. *)
Definition radar_values (df : DataFrame) : list Q :=
  let vs := [comp_clima df; comp_prod df; comp_doencas df;
             comp_agua df; comp_food df] in
  vs ++ firstn 1 vs.

Definition radar_categories : list string :=
  let cs := ["Clima"; "Produção"; "Doenças"; "Água"; "Alimentação"] in
  cs ++ firstn 1 cs.

Definition viz5 (df : loc) : M unit :=
  emit (Subheader "🕸️ Radar – Componentes Médios da Vulnerabilidade") ;;
  d <- deref df ;;
  emit (PlotlyChart (FigRadar radar_categories (radar_values d))).

(** The five charts, in the order of the page. *)
Definition graficos (df : loc) : M unit :=
  viz1 df ;; viz2 df ;; viz3 df ;; viz4 df ;; viz5 df.

(** One pass of the whole script. *)
Definition app (env : Env) (w : Widgets) : M unit :=
  emit (Title "🌎📊 Dashboard Amazônia – Clima, Produção e Saúde") ;;
  _df <- carregamento env ;;
  bounds <- barra_lateral _df w ;;
  df <- aplicar_filtros _df (fst bounds) (snd bounds) w ;;
  parar_se_vazio df ;;
  graficos df ;;
  emit (Markdown "---") ;;
  emit (Caption "Desenvolvido com ❤️ usando Streamlit | Dados: Projeto Amazônia 2025").

Definition init : State := mkState [] [].

Definition run (env : Env) (w : Widgets) : Outcome unit := app env w init.

End Dashboard.

(* ================================================================== *)
(** ** Closed forms of what the stages compute *)
(* ================================================================== *)

Module Esperado.
Import Pandas Streamlit Dashboard.

(** The bounds a value of the date control stands for, when it has any. *)
Definition limites (p : DateInput) : option (Timestamp * Timestamp) :=
  match p with
  | OneDate d => Some (to_datetime d, to_datetime d)
  | DateTuple (a :: b :: _) => Some (to_datetime a, to_datetime b)
  | DateTuple _ => None
  end.

Definition passa_agua (o : AguaOpcao) (r : Row) : bool :=
  match o with
  | AguaTodos => true
  | Sim => acesso_agua_potavel r
  | Nao => negb (acesso_agua_potavel r)
  end.

Definition passa_tipo (o : TipoOpcao) (d : DataFrame) (r : Row) : bool :=
  match o with
  | TipoTodos => true
  | Climaticos =>
      if has_column d "variacao_climatica"
      then eq_one (variacao_climatica r) else true
  | Socioeconomicos =>
      if has_column d "flag_incidente_alta"
      then eq_one (flag_incidente_alta r) else true
  end.

(** The four masks of the filter stage in one pass. *)
Definition criterio (a b : Timestamp) (w : Widgets) (d : DataFrame)
    (r : Row) : bool :=
  mask_periodo a b r && mask_vul (faixa_vul w) r
  && passa_agua (agua_opcao w) r && passa_tipo (tipo_opcao w) d r.

Definition vista (d : DataFrame) (a b : Timestamp) (w : Widgets)
    : DataFrame :=
  mkDF (columns d) (filter (criterio a b w d) (rows d)).

(** The view once the box plot has written its label column. *)
Definition rotulada (v : DataFrame) : DataFrame :=
  setitem_agua_label v
    (map_flag "Sem acesso" "Com acesso" (map acesso_agua_potavel (rows v))).

(** What the side bar shows for the data set [d] when the period read
    is from [a] to [b]. *)
Definition barra (d : DataFrame) (a b : Timestamp) : list Event :=
  match min_datas (map data (rows d)), max_datas (map data (rows d)) with
  | Some data_min, Some data_max =>
      [SidebarHeader "⚙️ Filtros";
       SidebarDateInput "Período" (data_min, data_max)
         data_min data_max]
      ++ (if (a >? b)%Z then [SidebarError msg_periodo] else [])
      ++ [SidebarSlider "Faixa do Índice de Vulnerabilidade" 0 1
            (min_reais (map indice_vulnerabilidade (rows d)),
             max_reais (map indice_vulnerabilidade (rows d)))
            0.01;
          SidebarSelectbox "Acesso à Água Potável"
            ["Todos"; "Sim"; "Não"] 0;
          SidebarSelectbox "Foco do evento"
            ["Todos"; "Climáticos"; "Socioeconômicos"] 0]
  | _, _ => [SidebarHeader "⚙️ Filtros"]
  end.

(** What the page shows before the filter stage. *)
Definition cabecalho (d : DataFrame) (a b : Timestamp) : list Event :=
  Title "🌎📊 Dashboard Amazônia – Clima, Produção e Saúde"
  :: barra d a b.

(** What closes the page. *)
Definition rodape : list Event :=
  [Markdown "---";
   Caption "Desenvolvido com ❤️ usando Streamlit | Dados: Projeto Amazônia 2025"].

(** What the five charts add to the page for the view [v]. *)
Definition paineis (v : DataFrame) : list Event :=
  let ds := sort_values_data v in
  [ Subheader "📈 Chuva (30 d) × Produção (7 d) – Médias Móveis";
    PlotlyChart
      (FigLine (map data (rows ds)) (chuva_rol ds) (producao_rol ds));
    Subheader "🔄 Anomalia de Chuva × Produção";
    PlotlyChart
      (FigScatter
         (map anomalia_chuva_mm (rows v))
         (map volume_producao_tons (rows v))
         (map_flag "Sem água" "Com água" (map acesso_agua_potavel (rows v)))
         (map (fun r => (data r, indice_vulnerabilidade r)) (rows v)));
    Subheader "💧 Incidência de Doenças vs. Acesso à Água Potável";
    PlotlyChart
      (FigBox (map agua_label (rows (rotulada v)))
              (map incidencia_doencas (rows (rotulada v))));
    Subheader "📊 Heatmap de Correlação entre Variáveis Numéricas";
    PlotlyChart
      (FigHeat (numeric_cols (rotulada v)) (corr (rotulada v)));
    Subheader "🕸️ Radar – Componentes Médios da Vulnerabilidade";
    PlotlyChart (FigRadar radar_categories (radar_values (rotulada v))) ].

Definition is_chart (e : Event) : bool :=
  match e with PlotlyChart _ => true | _ => false end.

Definition is_error (e : Event) : bool :=
  match e with Error _ => true | _ => false end.

(** The state an outcome ends in. *)
Definition final {A} (o : Outcome A) : State :=
  match o with
  | Ok _ s => s
  | Stopped s => s
  | Raised _ s => s
  end.

(** Mean of the per-record score [f] over the rows: the scores added
    up, over the number of records. *)
Fixpoint soma (f : Row -> Q) (l : list Row) : Q :=
  match l with
  | [] => 0%Q
  | r :: l' => (f r + soma f l')%Q
  end.

Definition media (f : Row -> Q) (l : list Row) : Q :=
  (soma f l / inject_Z (Z.of_nat (List.length l)))%Q.

(** The clamp of the formulas: what is below 0 counts as 0, what is
    above 1 counts as 1. *)
Definition limitado (x : Q) : Q :=
  if Qlt_le_dec x 0 then 0%Q
  else if Qlt_le_dec 1 x then 1%Q
  else x.

(** The per-record stress scores of the five components. *)
Definition score_clima (r : Row) : Q :=
  limitado (Qabs (anomalia_chuva_mm r) / 200)%Q.
Definition score_prod (r : Row) : Q :=
  limitado (1 - volume_producao_tons r / 20)%Q.
Definition score_doencas (r : Row) : Q :=
  limitado (incidencia_doencas r / 6)%Q.
Definition score_food (r : Row) : Q :=
  limitado (1 - indicador_seguranca_alimentar r / 100)%Q.

(** Number of records with access to water. *)
Definition com_agua (l : list Row) : nat :=
  List.length (filter acesso_agua_potavel l).

(** The frame [cur] is the newest object of the store, at [l]; the
    store extends [h] and the page shows [o]. *)
Definition no_topo (h : list DataFrame) (o : list Event)
    (cur : DataFrame) (l : loc) (s : State) : Prop :=
  exists X ext,
    s = mkState (X ++ [cur]) o /\ l = List.length X
    /\ X ++ [cur] = h ++ ext /\ (List.length h <= List.length X)%nat.

(** The criteria [w] with another event focus. *)
Definition com_tipo (w : Widgets) (t : TipoOpcao) : Widgets :=
  mkWidgets (periodo w) (faixa_vul w) (agua_opcao w) t.

(** A stage that receives a frame leaves it, in the store, as it found
    it. *)
Definition preserva (stage : loc -> M unit) : Prop :=
  forall (l : loc) (s s' : State) (v : DataFrame),
    nth_error (heap s) l = Some v ->
    stage l s = Ok tt s' ->
    nth_error (heap s') l = Some v.

(** The label the box plot gives a record. *)
Definition rotulo (r : Row) : string :=
  if acesso_agua_potavel r then "Com acesso" else "Sem acesso".

(** The values a series has, without the missing ones. *)
Fixpoint presentes (xs : list (option Q)) : list Q :=
  match xs with
  | [] => []
  | Some x :: xs' => x :: presentes xs'
  | None :: xs' => presentes xs'
  end.


(** The entry of a matrix at line [i] and column [j], when it has one. *)
Definition entrada (m : list (list (option R))) (i j : nat)
    : option (option R) :=
  match nth_error m i with
  | Some linha => nth_error linha j
  | None => None
  end.


(** The criteria [w] with another water selector. *)
Definition com_agua_opcao (w : Widgets) (o : AguaOpcao) : Widgets :=
  mkWidgets (periodo w) (faixa_vul w) o (tipo_opcao w).

(** The criteria [w] with another range of the index. *)
Definition com_faixa (w : Widgets) (f : Q * Q) : Widgets :=
  mkWidgets (periodo w) f (agua_opcao w) (tipo_opcao w).

(** The charts of a page, in order. *)
Definition graficos_da_pagina (o : list Event) : list Event :=
  filter is_chart o.

Definition is_warning (e : Event) : bool :=
  match e with Warning _ => true | _ => false end.

Definition is_sidebar_error (e : Event) : bool :=
  match e with SidebarError _ => true | _ => false end.

(** The kind of a chart. *)
Inductive Tipo := Linha | Dispersao | Caixa | Calor | Radar.

Definition tipo_do_grafico (e : Event) : option Tipo :=
  match e with
  | PlotlyChart (FigLine _ _ _) => Some Linha
  | PlotlyChart (FigScatter _ _ _ _) => Some Dispersao
  | PlotlyChart (FigBox _ _) => Some Caixa
  | PlotlyChart (FigHeat _ _) => Some Calor
  | PlotlyChart (FigRadar _ _) => Some Radar
  | _ => None
  end.

(** The series of a chart have the lengths that belong together: [n]
    points for the charts over the records, a square matrix with one
    label per line for the heat map, one value per axis for the radar. *)
Definition bem_formado (n : nat) (e : Event) : bool :=
  match e with
  | PlotlyChart (FigLine x c p) =>
      (List.length x =? n)%nat && (List.length c =? n)%nat
      && (List.length p =? n)%nat
  | PlotlyChart (FigScatter x y c h) =>
      (List.length x =? n)%nat && (List.length y =? n)%nat
      && (List.length c =? n)%nat && (List.length h =? n)%nat
  | PlotlyChart (FigBox x y) =>
      (List.length x =? n)%nat && (List.length y =? n)%nat
  | PlotlyChart (FigHeat labels z) =>
      (List.length z =? List.length labels)%nat
      && forallb (fun linha : list (option R) =>
                    (List.length linha =? List.length labels)%nat) z
  | PlotlyChart (FigRadar theta r) =>
      (List.length theta =? List.length r)%nat
  | _ => true
  end.

End Esperado.

(* ================================================================== *)
(** ** Small data sets used as concrete instances *)
(* ================================================================== *)

Module Exemplos.
Import Pandas Streamlit Dashboard Esperado.

Definition colunas_base : list string :=
  ["data"; "chuvas_reais_mm"; "anomalia_chuva_mm"; "volume_producao_tons";
   "incidencia_doencas"; "acesso_agua_potavel"; "indice_vulnerabilidade";
   "indicador_seguranca_alimentar"].

(** Three days of January 2024, as day numbers 1, 2 and 3. *)
Definition dia1 : Row :=
  mkRow 1%Z 120 (-30) 12 3 true 0.1 80 None None None None None.
Definition dia2 : Row :=
  mkRow 2%Z 90 45 8 5 false 0.5 60 None None None None None.
Definition dia3 : Row :=
  mkRow 3%Z 200 250 25 7 true 0.9 40 None None None None None.

Definition tres_dias : DataFrame := mkDF colunas_base [dia1; dia2; dia3].

Definition pasta : Env := mkEnv (Some tres_dias).

Definition tudo : Widgets :=
  mkWidgets (DateTuple [1; 3]%Z) (0, 1)%Q AguaTodos TipoTodos.





End Exemplos.

(* ================================================================== *)
(** ** Properties *)
(* ================================================================== *)

Import Pandas Streamlit Dashboard Esperado Exemplos.

(** Linear arithmetic over the rationals. *)
Ltac qlra := Lqa.lra.

(** *** The store *)

Lemma nth_error_snoc_old {A} (h : list A) (x : A) (k : nat) :
  (k < List.length h)%nat -> nth_error (h ++ [x]) k = nth_error h k.
Proof. intros Hk. now rewrite nth_error_app1. Qed.

Lemma nth_error_snoc_new {A} (h : list A) (x : A) :
  nth_error (h ++ [x]) (List.length h) = Some x.
Proof. rewrite nth_error_app2, Nat.sub_diag by lia. reflexivity. Qed.

Lemma nth_error_in_range {A} (h : list A) (k : nat) (x : A) :
  nth_error h k = Some x -> (k < List.length h)%nat.
Proof. intros H. apply nth_error_Some. congruence. Qed.

Lemma update_length {A} (h : list A) (k : nat) (x : A) :
  List.length (update h k x) = List.length h.
Proof.
  revert k; induction h as [|y h IH]; intros [|k]; simpl; auto.
Qed.

Lemma nth_error_update_same {A} (h : list A) (k : nat) (x : A) :
  (k < List.length h)%nat -> nth_error (update h k x) k = Some x.
Proof.
  revert k; induction h as [|y h IH]; intros [|k] Hk; simpl in *;
    try lia; auto.
  apply IH. lia.
Qed.

Lemma nth_error_update_other {A} (h : list A) (k j : nat) (x : A) :
  j <> k -> nth_error (update h k x) j = nth_error h j.
Proof.
  revert k j; induction h as [|y h IH]; intros [|k] [|j] Hne; simpl;
    try congruence; auto.
Qed.

Lemma deref_ok (l : loc) (s : State) (d : DataFrame) :
  nth_error (heap s) l = Some d -> deref l s = Ok d s.
Proof. intros H. unfold deref. now rewrite H. Qed.

Lemma select_ok (l : loc) (mask : Row -> bool) (s : State) (d : DataFrame) :
  nth_error (heap s) l = Some d ->
  select l mask s
  = Ok (List.length (heap s))
       (mkState (heap s ++ [getitem_mask d mask]) (out s)).
Proof.
  intros H. unfold select, bind. rewrite (deref_ok _ _ H). reflexivity.
Qed.

Lemma deref_last (X : list DataFrame) (cur : DataFrame) (o : list Event) :
  deref (List.length X) (mkState (X ++ [cur]) o)
  = Ok cur (mkState (X ++ [cur]) o).
Proof. apply deref_ok. simpl. apply nth_error_snoc_new. Qed.

Lemma select_last (X : list DataFrame) (cur : DataFrame) (o : list Event)
    (mask : Row -> bool) :
  select (List.length X) mask (mkState (X ++ [cur]) o)
  = Ok (List.length (X ++ [cur]))
       (mkState ((X ++ [cur]) ++ [getitem_mask cur mask]) o).
Proof.
  rewrite (@select_ok _ mask _ cur); [reflexivity|].
  simpl. apply nth_error_snoc_new.
Qed.

(** *** The filter stage *)

Lemma filter_filter {A} (f g : A -> bool) (l : list A) :
  filter f (filter g l) = filter (fun x => g x && f x) l.
Proof.
  induction l as [|x l IH]; simpl; auto.
  destruct (g x); simpl; [destruct (f x)|]; now rewrite IH.
Qed.

Lemma mask_agua_passa (o : AguaOpcao) (v : bool) (r : Row) :
  map_agua o = Some v -> mask_agua v r = passa_agua o r.
Proof.
  destruct o; simpl; intros E; inversion E; subst; unfold mask_agua;
    now destruct (acesso_agua_potavel r).
Qed.

Lemma getitem_getitem (d : DataFrame) (f g : Row -> bool) :
  getitem_mask (getitem_mask d g) f
  = getitem_mask d (fun r => g r && f r).
Proof. unfold getitem_mask; simpl. now rewrite filter_filter. Qed.

Lemma getitem_ext (d : DataFrame) (f g : Row -> bool) :
  (forall r, f r = g r) -> getitem_mask d f = getitem_mask d g.
Proof.
  intros E. unfold getitem_mask. f_equal. now apply filter_ext.
Qed.

Lemma vista_getitem (d : DataFrame) (a b : Timestamp) (w : Widgets) :
  vista d a b w = getitem_mask d (criterio a b w d).
Proof. reflexivity. Qed.

Lemma has_column_getitem (d : DataFrame) (f : Row -> bool) (c : string) :
  has_column (getitem_mask d f) c = has_column d c.
Proof. reflexivity. Qed.

Lemma getitem_copy (d : DataFrame) (f : Row -> bool) :
  getitem_mask (copy d) f = getitem_mask d f.
Proof. reflexivity. Qed.

Lemma no_topo_select {h o cur l s} (mask : Row -> bool) :
  no_topo h o cur l s ->
  exists l' s', select l mask s = Ok l' s'
                /\ no_topo h o (getitem_mask cur mask) l' s'.
Proof.
  intros (X & ext & -> & -> & Hext & Hlen).
  rewrite select_last.
  eexists _, _. split; [reflexivity|].
  exists (X ++ [cur]), (ext ++ [getitem_mask cur mask]).
  repeat split.
  - now rewrite app_assoc, <- Hext.
  - rewrite length_app. lia.
Qed.

Lemma no_topo_deref {h o cur l s} :
  no_topo h o cur l s -> deref l s = Ok cur s.
Proof.
  intros (X & ext & -> & -> & _). apply deref_last.
Qed.

Lemma no_topo_lookup {h o cur l s} :
  no_topo h o cur l s ->
  exists ext, s = mkState (h ++ ext) o
              /\ (List.length h <= l)%nat
              /\ nth_error (h ++ ext) l = Some cur.
Proof.
  intros (X & ext & -> & -> & Hext & Hlen).
  exists ext. rewrite <- Hext. repeat split; auto.
  apply nth_error_snoc_new.
Qed.

Lemma no_topo_eq {h o cur cur' l s} :
  cur = cur' -> no_topo h o cur l s -> no_topo h o cur' l s.
Proof. now intros ->. Qed.

(** The filter stage always returns: it allocates the frames of its
    steps after the objects that exist, prints nothing, and the frame it
    returns is the data set restricted by the four masks. *)
Lemma aplicar_filtros_vista (l : loc) (s : State) (d : DataFrame)
    (a b : Timestamp) (w : Widgets) :
  nth_error (heap s) l = Some d ->
  exists l' ext,
    aplicar_filtros l a b w s
    = Ok l' (mkState (heap s ++ ext) (out s))
    /\ (List.length (heap s) <= l')%nat
    /\ nth_error (heap s ++ ext) l' = Some (vista d a b w).
Proof.
  intros H.
  enough (exists l' s', aplicar_filtros l a b w s = Ok l' s'
            /\ no_topo (heap s) (out s) (vista d a b w) l' s') as
    (l' & s' & Hrun & Htop).
  { destruct (no_topo_lookup Htop) as (ext & -> & Hl & Hn).
    now exists l', ext. }
  unfold aplicar_filtros.
  unfold bind at 1. rewrite (deref_ok _ _ H).
  unfold bind at 1. unfold new at 1.
  assert (T0 : no_topo (heap s) (out s) (copy d) (List.length (heap s))
                 (mkState (heap s ++ [copy d]) (out s))).
  { exists (heap s), [copy d]. repeat split; auto. }
  destruct (no_topo_select (mask_periodo a b) T0) as (l1 & s1 & E1 & T1).
  unfold bind at 1. rewrite E1. clear E1 T0.
  destruct (no_topo_select (mask_vul (faixa_vul w)) T1)
    as (l2 & s2 & E2 & T2).
  unfold bind at 1. rewrite E2. clear E2 T1.
  rewrite getitem_copy, getitem_getitem in T2.
  unfold bind at 1.
  assert (Hagua : exists l3 s3,
    (if negb (agua_eqb (agua_opcao w) AguaTodos)
     then match map_agua (agua_opcao w) with
          | Some v => select l2 (mask_agua v)
          | None => raise KeyError
          end
     else ret l2) s2 = Ok l3 s3
    /\ no_topo (heap s) (out s)
         (getitem_mask d
            (fun r => mask_periodo a b r && mask_vul (faixa_vul w) r
                      && passa_agua (agua_opcao w) r)) l3 s3).
  { destruct (agua_opcao w); cbn [agua_eqb negb map_agua passa_agua].
    - exists l2, s2. split; [reflexivity|].
      eapply no_topo_eq; [|exact T2].
      apply getitem_ext. intros r. now rewrite andb_true_r.
    - destruct (no_topo_select (mask_agua true) T2) as (l3 & s3 & E3 & T3).
      exists l3, s3. split; [exact E3|].
      eapply no_topo_eq; [|exact T3].
      rewrite getitem_getitem. apply getitem_ext. intros r.
      unfold mask_agua. now destruct (acesso_agua_potavel r).
    - destruct (no_topo_select (mask_agua false) T2) as (l3 & s3 & E3 & T3).
      exists l3, s3. split; [exact E3|].
      eapply no_topo_eq; [|exact T3].
      rewrite getitem_getitem. apply getitem_ext. intros r.
      unfold mask_agua. now destruct (acesso_agua_potavel r). }
  destruct Hagua as (l3 & s3 & E3 & T3). rewrite E3. clear E3 T2.
  unfold bind at 1. rewrite (no_topo_deref T3).
  rewrite !has_column_getitem.
  assert (Hsel : forall f, (forall r, f r = passa_tipo (tipo_opcao w) d r) ->
            exists l' s', select l3 f s3 = Ok l' s'
               /\ no_topo (heap s) (out s) (vista d a b w) l' s').
  { intros f Hf. destruct (no_topo_select f T3) as (l4 & s4 & E4 & T4).
    exists l4, s4. split; [exact E4|].
    eapply no_topo_eq; [|exact T4].
    rewrite getitem_getitem, vista_getitem. apply getitem_ext.
    intros r. unfold criterio. now rewrite Hf. }
  assert (Hret : (forall r, passa_tipo (tipo_opcao w) d r = true) ->
            exists l' s', ret l3 s3 = Ok l' s'
               /\ no_topo (heap s) (out s) (vista d a b w) l' s').
  { intros Hf. exists l3, s3. split; [reflexivity|].
    eapply no_topo_eq; [|exact T3].
    rewrite vista_getitem. apply getitem_ext.
    intros r. unfold criterio. now rewrite Hf, andb_true_r. }
  destruct (tipo_opcao w); cbn [tipo_eqb andb] in *.
  - apply Hret. reflexivity.
  - destruct (has_column d "variacao_climatica") eqn:Ec.
    + apply Hsel. intros r. cbn [passa_tipo]. now rewrite Ec.
    + apply Hret. intros r. cbn [passa_tipo]. now rewrite Ec.
  - destruct (has_column d "flag_incidente_alta") eqn:Ec.
    + apply Hsel. intros r. cbn [passa_tipo]. now rewrite Ec.
    + apply Hret. intros r. cbn [passa_tipo]. now rewrite Ec.
Qed.
(** *** The chart stages *)

Lemma emit_ok (e : Event) (s : State) :
  emit e s = Ok tt (mkState (heap s) (out s ++ [e])).
Proof. reflexivity. Qed.

Lemma deref_mk (l : loc) (h : list DataFrame) (o : list Event)
    (d : DataFrame) :
  nth_error h l = Some d -> deref l (mkState h o) = Ok d (mkState h o).
Proof. intros H. now apply deref_ok. Qed.

Lemma viz1_ok (l : loc) (s : State) (v : DataFrame) :
  nth_error (heap s) l = Some v ->
  viz1 l s
  = Ok tt (mkState (heap s ++ [sort_values_data v])
             (out s ++ firstn 2 (paineis v))).
Proof.
  intros H. unfold viz1.
  unfold bind at 1. rewrite emit_ok.
  unfold bind at 1. rewrite (deref_mk _ _ _ H).
  unfold bind at 1. unfold new at 1. cbn [heap out].
  unfold bind at 1. rewrite (@deref_ok _ _ (sort_values_data v)).
  - rewrite emit_ok. cbn [heap out]. now rewrite <- app_assoc.
  - cbn [heap]. apply nth_error_snoc_new.
Qed.

Lemma viz2_ok (l : loc) (s : State) (v : DataFrame) :
  nth_error (heap s) l = Some v ->
  viz2 l s
  = Ok tt (mkState (heap s) (out s ++ firstn 2 (skipn 2 (paineis v)))).
Proof.
  intros H. unfold viz2.
  unfold bind at 1. rewrite emit_ok.
  unfold bind at 1. rewrite (deref_mk _ _ _ H).
  rewrite emit_ok. cbn [heap out]. now rewrite <- app_assoc.
Qed.

Lemma viz3_ok (l : loc) (s : State) (v : DataFrame) :
  nth_error (heap s) l = Some v ->
  viz3 l s
  = Ok tt (mkState (update (heap s) l (rotulada v))
             (out s ++ firstn 2 (skipn 4 (paineis v)))).
Proof.
  intros H. unfold viz3.
  unfold bind at 1. rewrite emit_ok.
  unfold bind at 1. rewrite (deref_mk _ _ _ H).
  unfold bind at 1. unfold assign at 1. cbn [heap out]. rewrite H.
  unfold bind at 1. rewrite (@deref_ok _ _ (rotulada v)).
  - rewrite emit_ok. cbn [heap out]. now rewrite <- app_assoc.
  - cbn [heap]. apply nth_error_update_same.
    eapply nth_error_in_range; eauto.
Qed.

Lemma viz4_ok (l : loc) (s : State) (v : DataFrame) :
  nth_error (heap s) l = Some (rotulada v) ->
  viz4 l s
  = Ok tt (mkState (heap s) (out s ++ firstn 2 (skipn 6 (paineis v)))).
Proof.
  intros H. unfold viz4.
  unfold bind at 1. rewrite emit_ok.
  unfold bind at 1. rewrite (deref_mk _ _ _ H).
  rewrite emit_ok. cbn [heap out]. now rewrite <- app_assoc.
Qed.

Lemma viz5_ok (l : loc) (s : State) (v : DataFrame) :
  nth_error (heap s) l = Some (rotulada v) ->
  viz5 l s
  = Ok tt (mkState (heap s) (out s ++ skipn 8 (paineis v))).
Proof.
  intros H. unfold viz5.
  unfold bind at 1. rewrite emit_ok.
  unfold bind at 1. rewrite (deref_mk _ _ _ H).
  rewrite emit_ok. cbn [heap out]. now rewrite <- app_assoc.
Qed.

(** The five charts always get drawn; the store gains the sorted copy
    of the view, and the view itself is overwritten by its labelled
    version. *)
Lemma graficos_ok (l : loc) (s : State) (v : DataFrame) :
  nth_error (heap s) l = Some v ->
  graficos l s
  = Ok tt (mkState (update (heap s ++ [sort_values_data v]) l (rotulada v))
             (out s ++ paineis v)).
Proof.
  intros H. pose proof (nth_error_in_range _ _ H) as Hl.
  unfold graficos.
  unfold bind at 1. rewrite (viz1_ok _ _ H).
  assert (H1 : nth_error (heap s ++ [sort_values_data v]) l = Some v)
    by now rewrite nth_error_snoc_old.
  unfold bind at 1. rewrite (@viz2_ok _ _ v) by exact H1. cbn [heap out].
  unfold bind at 1. rewrite (@viz3_ok _ _ v) by exact H1. cbn [heap out].
  assert (H3 : nth_error
                 (update (heap s ++ [sort_values_data v]) l (rotulada v)) l
               = Some (rotulada v)).
  { apply nth_error_update_same. rewrite length_app. lia. }
  unfold bind at 1. rewrite (@viz4_ok _ _ v) by exact H3. cbn [heap out].
  rewrite (@viz5_ok _ _ v) by exact H3. cbn [heap out].
  rewrite <- !app_assoc. reflexivity.
Qed.
(** *** The whole pass *)

Lemma ler_periodo_ok (p : DateInput) (a b : Timestamp) (s : State) :
  limites p = Some (a, b) ->
  ler_periodo p s
  = Ok (a, b)
       (mkState (heap s)
          (out s ++ (if (a >? b)%Z then [SidebarError msg_periodo] else []))).
Proof.
  intros H. unfold ler_periodo.
  assert (E : (match p with
               | DateTuple ds =>
                   match nth_error ds 0, nth_error ds 1 with
                   | Some a, Some b => ret (to_datetime a, to_datetime b)
                   | _, _ => raise IndexError
                   end
               | OneDate d => ret (to_datetime d, to_datetime d)
               end) s = Ok (a, b) s).
  { destruct p as [x|[|x [|y ds]]]; cbn in H; inversion H; subst;
      reflexivity. }
  unfold bind at 1. rewrite E. cbn [fst snd].
  unfold bind, when. destruct (a >? b)%Z.
  - rewrite emit_ok. reflexivity.
  - unfold ret. rewrite app_nil_r. now destruct s.
Qed.

Lemma ler_periodo_curto (p : DateInput) (s : State) :
  limites p = None -> ler_periodo p s = Raised IndexError s.
Proof.
  intros H. unfold ler_periodo.
  destruct p as [x|[|x [|y ds]]]; cbn in H; try discriminate; reflexivity.
Qed.

Lemma carregamento_ok (env : Env) (d : DataFrame) (s : State) :
  dados_integrados env = Some d ->
  carregamento env s
  = Ok (List.length (heap s)) (mkState (heap s ++ [d]) (out s)).
Proof.
  intros H. unfold carregamento, carregar_dados. rewrite H. reflexivity.
Qed.

Lemma carregamento_sem_arquivo (env : Env) (s : State) :
  dados_integrados env = None ->
  carregamento env s
  = Stopped (mkState (heap s) (out s ++ [Error msg_sem_arquivo])).
Proof.
  intros H. unfold carregamento. rewrite H. reflexivity.
Qed.

Lemma parar_se_vazio_ok (l : loc) (s : State) (v : DataFrame) :
  nth_error (heap s) l = Some v ->
  parar_se_vazio l s
  = if empty v
    then Stopped (mkState (heap s) (out s ++ [Warning msg_vazio]))
    else Ok tt s.
Proof.
  intros H. unfold parar_se_vazio.
  unfold bind at 1. rewrite (deref_ok _ _ H).
  destruct (empty v); reflexivity.
Qed.

Lemma datas_presentes (d : DataFrame) :
  rows d <> [] ->
  exists lo hi,
    min_datas (map data (rows d)) = Some lo
    /\ max_datas (map data (rows d)) = Some hi.
Proof.
  destruct (rows d) as [|r rs]; [congruence|]. intros _.
  cbn [map min_datas max_datas]. eauto.
Qed.

(** The side bar on a data set with records and a usable period. *)
Lemma barra_lateral_ok (l : loc) (s : State) (d : DataFrame) (w : Widgets)
    (a b : Timestamp) :
  nth_error (heap s) l = Some d ->
  rows d <> [] ->
  limites (periodo w) = Some (a, b) ->
  barra_lateral l w s = Ok (a, b) (mkState (heap s) (out s ++ barra d a b)).
Proof.
  intros H Hne Hp. destruct (datas_presentes _ Hne) as (lo & hi & Hlo & Hhi).
  unfold barra_lateral, barra. rewrite Hlo, Hhi.
  unfold bind at 1. rewrite emit_ok.
  unfold bind at 1. rewrite (deref_mk _ _ _ H). rewrite Hlo, Hhi.
  unfold bind at 1. rewrite emit_ok. cbn [heap out].
  unfold bind at 1. rewrite (ler_periodo_ok _ _ Hp). cbn [heap out].
  unfold bind at 1. rewrite emit_ok. cbn [heap out].
  unfold bind at 1. rewrite emit_ok. cbn [heap out].
  unfold bind at 1. rewrite emit_ok. cbn [heap out].
  unfold ret. rewrite <- !app_assoc. reflexivity.
Qed.

(** The side bar when the period has fewer than two dates. *)
Lemma barra_lateral_curto (l : loc) (s : State) (d : DataFrame)
    (w : Widgets) (lo hi : Timestamp) :
  nth_error (heap s) l = Some d ->
  min_datas (map data (rows d)) = Some lo ->
  max_datas (map data (rows d)) = Some hi ->
  limites (periodo w) = None ->
  barra_lateral l w s
  = Raised IndexError
      (mkState (heap s)
         (out s ++ [SidebarHeader "⚙️ Filtros";
                    SidebarDateInput "Período" (lo, hi) lo hi])).
Proof.
  intros H Hlo Hhi Hp. unfold barra_lateral.
  unfold bind at 1. rewrite emit_ok.
  unfold bind at 1. rewrite (deref_mk _ _ _ H). rewrite Hlo, Hhi.
  unfold bind at 1. rewrite emit_ok. cbn [heap out].
  unfold bind at 1. rewrite (ler_periodo_curto _ _ Hp).
  rewrite <- app_assoc. reflexivity.
Qed.

(** The side bar on a data set with no record. *)
Lemma barra_lateral_vazio (l : loc) (s : State) (d : DataFrame)
    (w : Widgets) :
  nth_error (heap s) l = Some d ->
  rows d = [] ->
  barra_lateral l w s
  = Raised AttributeError
      (mkState (heap s) (out s ++ [SidebarHeader "⚙️ Filtros"])).
Proof.
  intros H He. unfold barra_lateral.
  unfold bind at 1. rewrite emit_ok.
  unfold bind at 1. rewrite (deref_mk _ _ _ H). rewrite He. reflexivity.
Qed.

(** One pass on an existing file with records and a usable period: the
    data set is the object 0, the filter stage leaves the view
    [vista d a b w] at some later address, and the pass either stops
    there on an empty view or draws the five charts. *)
Lemma run_ok (env : Env) (w : Widgets) (d : DataFrame) (a b : Timestamp) :
  dados_integrados env = Some d ->
  rows d <> [] ->
  limites (periodo w) = Some (a, b) ->
  exists l ext,
    (1 <= l)%nat
    /\ nth_error (d :: ext) l = Some (vista d a b w)
    /\ aplicar_filtros 0%nat a b w (mkState [d] (cabecalho d a b))
       = Ok l (mkState (d :: ext) (cabecalho d a b))
    /\ run env w
       = if empty (vista d a b w)
         then Stopped (mkState (d :: ext)
                         (cabecalho d a b ++ [Warning msg_vazio]))
         else Ok tt
                (mkState
                   (update ((d :: ext) ++ [sort_values_data (vista d a b w)])
                      l (rotulada (vista d a b w)))
                   (cabecalho d a b ++ paineis (vista d a b w) ++ rodape)).
Proof.
  intros Hd Hne Hp.
  destruct (@aplicar_filtros_vista 0%nat (mkState [d] (cabecalho d a b))
              d a b w eq_refl) as (l & ext & Hf & Hl & Hn).
  cbn [heap out] in *. change ([d] ++ ext) with (d :: ext) in *.
  exists l, ext. repeat split; auto.
  unfold run, app.
  unfold bind at 1. rewrite emit_ok.
  unfold bind at 1. rewrite (carregamento_ok _ _ Hd).
  cbn [heap out init List.app List.length].
  unfold bind at 1.
  rewrite (@barra_lateral_ok 0%nat
             (mkState [d] [Title "🌎📊 Dashboard Amazônia – Clima, Produção e Saúde"])
             d w a b eq_refl Hne Hp).
  cbn [heap out fst snd List.app].
  change (Title "🌎📊 Dashboard Amazônia – Clima, Produção e Saúde"
          :: barra d a b)
    with (cabecalho d a b).
  unfold bind at 1. rewrite Hf.
  unfold bind at 1. rewrite (@parar_se_vazio_ok _ _ (vista d a b w)) by exact Hn.
  destruct (empty (vista d a b w)); [reflexivity|].
  unfold bind at 1. rewrite (@graficos_ok _ _ (vista d a b w)) by exact Hn.
  unfold bind at 1. rewrite emit_ok. rewrite emit_ok. cbn [heap out].
  unfold rodape. now rewrite <- !app_assoc.
Qed.

Lemma run_sem_arquivo (env : Env) (w : Widgets) :
  dados_integrados env = None ->
  run env w
  = Stopped
      (mkState []
         [Title "🌎📊 Dashboard Amazônia – Clima, Produção e Saúde";
          Error msg_sem_arquivo]).
Proof.
  intros H. unfold run, app.
  unfold bind at 1. rewrite emit_ok.
  unfold bind at 1. rewrite (carregamento_sem_arquivo _ _ H). reflexivity.
Qed.
(** *** The view of the filter stage, record by record *)

Lemma mask_periodo_true (a b : Timestamp) (r : Row) :
  mask_periodo a b r = true <-> (a <= data r <= b)%Z.
Proof. unfold mask_periodo. rewrite andb_true_iff, !Z.leb_le. tauto. Qed.

Lemma mask_vul_true (f : Q * Q) (r : Row) :
  mask_vul f r = true
  <-> (fst f <= indice_vulnerabilidade r
       /\ indice_vulnerabilidade r <= snd f)%Q.
Proof. unfold mask_vul. rewrite andb_true_iff, !Qle_bool_iff. tauto. Qed.

Lemma eq_one_true (v : option bool) : eq_one v = true <-> v = Some true.
Proof. destruct v as [[|]|]; simpl; split; congruence. Qed.

Lemma criterio_true (a b : Timestamp) (w : Widgets) (d : DataFrame)
    (r : Row) :
  criterio a b w d r = true
  <-> mask_periodo a b r = true /\ mask_vul (faixa_vul w) r = true
      /\ passa_agua (agua_opcao w) r = true
      /\ passa_tipo (tipo_opcao w) d r = true.
Proof. unfold criterio. rewrite !andb_true_iff. tauto. Qed.

Lemma vista_In (d : DataFrame) (a b : Timestamp) (w : Widgets) (r : Row) :
  In r (rows (vista d a b w))
  <-> In r (rows d) /\ criterio a b w d r = true.
Proof. unfold vista. cbn [rows]. apply filter_In. Qed.

Lemma vista_len (d : DataFrame) (a b : Timestamp) (w : Widgets) :
  (len (vista d a b w) <= len d)%nat.
Proof. unfold len, vista. cbn [rows]. apply filter_length_le. Qed.

Lemma filter_all {A} (f : A -> bool) (l : list A) :
  (forall x, In x l -> f x = true) -> filter f l = l.
Proof.
  induction l as [|x l IH]; intros H; simpl; auto.
  rewrite (H x) by now left. f_equal. apply IH. intros y Hy. apply H.
  now right.
Qed.

Lemma filter_none {A} (f : A -> bool) (l : list A) :
  (forall x, In x l -> f x = false) -> filter f l = [].
Proof.
  induction l as [|x l IH]; intros H; simpl; auto.
  rewrite (H x) by now left. apply IH. intros y Hy. apply H. now right.
Qed.

(** C1 (as amended).  The view of the filter stage is never larger than
    the data set, and every record of it is a record of the data set
    that lies in the period (bounds included), has its index in the
    range (bounds included), has the selected water access when the
    selector is not "Todos", and has the flag of the selected event
    focus set whenever the data set has that flag's column. *)
Theorem filtro_conjuntivo (l : loc) (s : State) (d : DataFrame)
    (a b : Timestamp) (w : Widgets) :
  nth_error (heap s) l = Some d ->
  exists l' s' v,
    aplicar_filtros l a b w s = Ok l' s'
    /\ nth_error (heap s') l' = Some v
    /\ (len v <= len d)%nat
    /\ forall r, In r (rows v) ->
         In r (rows d)
         /\ (a <= data r <= b)%Z
         /\ (fst (faixa_vul w) <= indice_vulnerabilidade r)%Q
         /\ (indice_vulnerabilidade r <= snd (faixa_vul w))%Q
         /\ (agua_opcao w = Sim -> acesso_agua_potavel r = true)
         /\ (agua_opcao w = Nao -> acesso_agua_potavel r = false)
         /\ (tipo_opcao w = Climaticos ->
             has_column d "variacao_climatica" = true ->
             variacao_climatica r = Some true)
         /\ (tipo_opcao w = Socioeconomicos ->
             has_column d "flag_incidente_alta" = true ->
             flag_incidente_alta r = Some true).
Proof.
  intros H.
  destruct (aplicar_filtros_vista _ _ a b w H) as (l' & ext & Hf & _ & Hn).
  exists l', (mkState (heap s ++ ext) (out s)), (vista d a b w).
  split; [exact Hf|]. split; [exact Hn|]. split; [apply vista_len|].
  intros r Hr. apply vista_In in Hr. destruct Hr as [Hin Hc].
  apply criterio_true in Hc. destruct Hc as (Hp & Hv & Ha & Ht).
  apply mask_periodo_true in Hp. apply mask_vul_true in Hv.
  destruct Hv as [Hlo Hhi].
  repeat split; try tauto.
  - intros E. rewrite E in Ha. exact Ha.
  - intros E. rewrite E in Ha. cbn [passa_agua] in Ha.
    now destruct (acesso_agua_potavel r).
  - intros E Hc. rewrite E in Ht. cbn [passa_tipo] in Ht.
    rewrite Hc in Ht. now apply eq_one_true.
  - intros E Hc. rewrite E in Ht. cbn [passa_tipo] in Ht.
    rewrite Hc in Ht. now apply eq_one_true.
Qed.

Lemma filtro_conjuntivo_witness :
  nth_error (heap (mkState [tres_dias] [])) 0 = Some tres_dias
  /\ exists l' s' v,
       aplicar_filtros 0%nat 1%Z 3%Z tudo (mkState [tres_dias] [])
       = Ok l' s'
       /\ nth_error (heap s') l' = Some v
       /\ (len v <= len tres_dias)%nat
       /\ forall r, In r (rows v) ->
            In r (rows tres_dias)
            /\ (1 <= data r <= 3)%Z
            /\ (fst (faixa_vul tudo) <= indice_vulnerabilidade r)%Q
            /\ (indice_vulnerabilidade r <= snd (faixa_vul tudo))%Q
            /\ (agua_opcao tudo = Sim -> acesso_agua_potavel r = true)
            /\ (agua_opcao tudo = Nao -> acesso_agua_potavel r = false)
            /\ (tipo_opcao tudo = Climaticos ->
                has_column tres_dias "variacao_climatica" = true ->
                variacao_climatica r = Some true)
            /\ (tipo_opcao tudo = Socioeconomicos ->
                has_column tres_dias "flag_incidente_alta" = true ->
                flag_incidente_alta r = Some true).
Proof.
  split; [reflexivity|].
  apply (@filtro_conjuntivo 0%nat (mkState [tres_dias] []) tres_dias
           1%Z 3%Z tudo).
  reflexivity.
Defined.

(** The claim C1 read for every data set fails where the data set has no
    column for the selected event focus: the focus "Climaticos" on
    [tres_dias], which has no [variacao_climatica], keeps every record,
    and none of them has the flag set. *)
Lemma filtro_foco_sem_coluna_refuta :
  ~ (forall (l : loc) (s : State) (d : DataFrame) (a b : Timestamp)
            (w : Widgets) (l' : loc) (s' : State) (v : DataFrame),
       nth_error (heap s) l = Some d ->
       aplicar_filtros l a b w s = Ok l' s' ->
       nth_error (heap s') l' = Some v ->
       (len v <= len d)%nat
       /\ forall r, In r (rows v) ->
            (a <= data r <= b)%Z
            /\ (fst (faixa_vul w) <= indice_vulnerabilidade r)%Q
            /\ (indice_vulnerabilidade r <= snd (faixa_vul w))%Q
            /\ (agua_opcao w = Sim -> acesso_agua_potavel r = true)
            /\ (agua_opcao w = Nao -> acesso_agua_potavel r = false)
            /\ (tipo_opcao w = Climaticos ->
                variacao_climatica r = Some true)
            /\ (tipo_opcao w = Socioeconomicos ->
                flag_incidente_alta r = Some true)).
Proof.
  intros C.
  destruct (C 0%nat (mkState [tres_dias] []) tres_dias 1%Z 3%Z
              (com_tipo tudo Climaticos) 3%nat
              (mkState [tres_dias; tres_dias; tres_dias; tres_dias] [])
              tres_dias eq_refl eq_refl eq_refl) as [_ Hr].
  destruct (Hr dia1 (or_introl eq_refl)) as (_ & _ & _ & _ & _ & Hc & _).
  specialize (Hc eq_refl). discriminate Hc.
Qed.
Lemma vista_sem_coluna (d : DataFrame) (a b : Timestamp) (w : Widgets) :
  (tipo_opcao w = Socioeconomicos
   /\ has_column d "flag_incidente_alta" = false)
  \/ (tipo_opcao w = Climaticos
      /\ has_column d "variacao_climatica" = false) ->
  vista d a b w = vista d a b (com_tipo w TipoTodos).
Proof.
  intros H. rewrite !vista_getitem. apply getitem_ext. intros r.
  unfold criterio. cbn [com_tipo faixa_vul agua_opcao tipo_opcao].
  f_equal. destruct H as [[-> Hc]|[-> Hc]]; cbn [passa_tipo];
    now rewrite Hc.
Qed.

Lemma vista_tudo (d : DataFrame) (a b : Timestamp) (w : Widgets) :
  (forall r, In r (rows d) -> criterio a b w d r = true) ->
  vista d a b w = d.
Proof.
  intros H. unfold vista. rewrite filter_all by exact H. now destruct d.
Qed.

(** C7.  On a data set without the column [flag_incidente_alta] the
    focus "Socioeconomicos" (and without [variacao_climatica] the focus
    "Climaticos") filters nothing: the stage returns, with no exception,
    the view it returns for the focus "Todos"; and when the other three
    criteria keep every record, that view is equal to the data set. *)
Theorem foco_sem_coluna (l : loc) (s : State) (d : DataFrame)
    (a b : Timestamp) (w : Widgets) :
  nth_error (heap s) l = Some d ->
  (tipo_opcao w = Socioeconomicos
   /\ has_column d "flag_incidente_alta" = false)
  \/ (tipo_opcao w = Climaticos
      /\ has_column d "variacao_climatica" = false) ->
  exists l' s' v,
    aplicar_filtros l a b w s = Ok l' s'
    /\ nth_error (heap s') l' = Some v
    /\ (exists l0 s0,
          aplicar_filtros l a b (com_tipo w TipoTodos) s = Ok l0 s0
          /\ nth_error (heap s0) l0 = Some v)
    /\ (agua_opcao w = AguaTodos ->
        (forall r, In r (rows d) ->
           (a <= data r <= b)%Z
           /\ (fst (faixa_vul w) <= indice_vulnerabilidade r)%Q
           /\ (indice_vulnerabilidade r <= snd (faixa_vul w))%Q) ->
        v = d).
Proof.
  intros H Hcol.
  destruct (aplicar_filtros_vista _ _ a b w H) as (l' & ext & Hf & _ & Hn).
  destruct (aplicar_filtros_vista _ _ a b (com_tipo w TipoTodos) H)
    as (l0 & ext0 & Hf0 & _ & Hn0).
  exists l', (mkState (heap s ++ ext) (out s)), (vista d a b w).
  split; [exact Hf|]. split; [exact Hn|]. split.
  - exists l0, (mkState (heap s ++ ext0) (out s)). split; [exact Hf0|].
    cbn [heap]. rewrite Hn0. f_equal. symmetry.
    now apply vista_sem_coluna.
  - intros Ha Hall. rewrite (vista_sem_coluna d a b w Hcol).
    apply vista_tudo. intros r Hr. apply criterio_true.
    cbn [com_tipo faixa_vul agua_opcao tipo_opcao passa_tipo].
    rewrite Ha. cbn [passa_agua].
    destruct (Hall r Hr) as (Hp & Hlo & Hhi).
    repeat split; auto.
    + now apply mask_periodo_true.
    + now apply mask_vul_true.
Qed.

Lemma foco_sem_coluna_witness :
  exists l' s' v,
    aplicar_filtros 0%nat 1%Z 3%Z (com_tipo tudo Socioeconomicos)
      (mkState [tres_dias] []) = Ok l' s'
    /\ nth_error (heap s') l' = Some v
    /\ (exists l0 s0,
          aplicar_filtros 0%nat 1%Z 3%Z
            (com_tipo (com_tipo tudo Socioeconomicos) TipoTodos)
            (mkState [tres_dias] []) = Ok l0 s0
          /\ nth_error (heap s0) l0 = Some v)
    /\ v = tres_dias.
Proof.
  destruct (@foco_sem_coluna 0%nat (mkState [tres_dias] []) tres_dias
              1%Z 3%Z (com_tipo tudo Socioeconomicos) eq_refl
              (or_introl (conj eq_refl eq_refl)))
    as (l' & s' & v & Hf & Hn & H0 & Hv).
  exists l', s', v. repeat split; auto.
  apply Hv; [reflexivity|].
  intros r [<-|[<-|[<-|[]]]]; cbn; repeat split; discriminate.
Defined.
Lemma vista_invertida (d : DataFrame) (a b : Timestamp) (w : Widgets) :
  (a > b)%Z -> vista d a b w = mkDF (columns d) [].
Proof.
  intros H. unfold vista. f_equal. apply filter_none. intros r _.
  unfold criterio.
  assert (E : mask_periodo a b r = false).
  { apply not_true_iff_false. rewrite mask_periodo_true. lia. }
  now rewrite E.
Qed.

Lemma empty_sem_linhas (cs : list string) : empty (mkDF cs []) = true.
Proof. reflexivity. Qed.

Lemma cabecalho_sem_graficos (d : DataFrame) (a b : Timestamp) :
  existsb is_chart (cabecalho d a b) = false.
Proof.
  unfold cabecalho, barra.
  destruct (min_datas (map data (rows d))), (max_datas (map data (rows d)));
    try reflexivity.
  now destruct (a >? b)%Z.
Qed.

Lemma cabecalho_sem_erro (d : DataFrame) (a b : Timestamp) :
  existsb is_error (cabecalho d a b) = false.
Proof.
  unfold cabecalho, barra.
  destruct (min_datas (map data (rows d))), (max_datas (map data (rows d)));
    try reflexivity.
  now destruct (a >? b)%Z.
Qed.

(** C5.  On a data set with records, with a period whose first date is
    after its second one, the side bar shows the advice and the pass
    goes on: the bounds reach the filter stage in the order given, the
    view is computed with them (no record lies between them, so it has
    no rows), and the pass ends on the empty-view warning. *)
Theorem periodo_invertido (env : Env) (w : Widgets) (d : DataFrame)
    (a b : Z) (rest : list Z) :
  dados_integrados env = Some d ->
  rows d <> [] ->
  periodo w = DateTuple (a :: b :: rest) ->
  (a > b)%Z ->
  (forall s,
     ler_periodo (periodo w) s
     = Ok (to_datetime a, to_datetime b)
          (mkState (heap s) (out s ++ [SidebarError msg_periodo])))
  /\ exists l ext v data_min data_max,
       min_datas (map data (rows d)) = Some data_min
       /\ max_datas (map data (rows d)) = Some data_max
       /\ aplicar_filtros 0%nat (to_datetime a) (to_datetime b) w
            (mkState [d] (cabecalho d a b))
          = Ok l (mkState (d :: ext) (cabecalho d a b))
       /\ nth_error (d :: ext) l = Some v
       /\ (forall r, In r (rows v) <->
             In r (rows d) /\ criterio (to_datetime a) (to_datetime b) w d r
                              = true)
       /\ rows v = []
       /\ run env w
          = Stopped
              (mkState (d :: ext)
                 [Title "🌎📊 Dashboard Amazônia – Clima, Produção e Saúde";
                  SidebarHeader "⚙️ Filtros";
                  SidebarDateInput "Período" (data_min, data_max)
                    data_min data_max;
                  SidebarError msg_periodo;
                  SidebarSlider "Faixa do Índice de Vulnerabilidade" 0 1
                    (min_reais (map indice_vulnerabilidade (rows d)),
                     max_reais (map indice_vulnerabilidade (rows d)))
                    0.01;
                  SidebarSelectbox "Acesso à Água Potável"
                    ["Todos"; "Sim"; "Não"] 0;
                  SidebarSelectbox "Foco do evento"
                    ["Todos"; "Climáticos"; "Socioeconômicos"] 0;
                  Warning msg_vazio]).
Proof.
  intros Hd Hne Hp Hab.
  assert (Hl : limites (periodo w) = Some (to_datetime a, to_datetime b))
    by now rewrite Hp.
  assert (Hgt : (a >? b)%Z = true) by (apply Z.gtb_lt; lia).
  unfold to_datetime in *.
  split.
  - intros s. rewrite (ler_periodo_ok _ s Hl). now rewrite Hgt.
  - destruct (run_ok env w Hd Hne Hl) as (l & ext & _ & Hn & Hf & Hrun).
    destruct (datas_presentes _ Hne) as (lo & hi & Hlo & Hhi).
    exists l, ext, (vista d a b w), lo, hi.
    split; [exact Hlo|]. split; [exact Hhi|].
    split; [exact Hf|]. split; [exact Hn|].
    split; [intros r; apply vista_In|].
    split; [now rewrite vista_invertida|].
    rewrite Hrun, vista_invertida, empty_sem_linhas by exact Hab.
    unfold cabecalho, barra. now rewrite Hlo, Hhi, Hgt.
Qed.

(** The scenario of the specification on [tres_dias], with the numbers
    of the days standing for the dates: the period from day 3 to day 1. *)
Lemma periodo_invertido_witness :
  exists l ext v,
    aplicar_filtros 0%nat 3%Z 1%Z
      (mkWidgets (DateTuple [3; 1]%Z) (0, 1)%Q AguaTodos TipoTodos)
      (mkState [tres_dias] (cabecalho tres_dias 3%Z 1%Z))
    = Ok l (mkState (tres_dias :: ext) (cabecalho tres_dias 3%Z 1%Z))
    /\ nth_error (tres_dias :: ext) l = Some v
    /\ rows v = []
    /\ exists s,
         run pasta
           (mkWidgets (DateTuple [3; 1]%Z) (0, 1)%Q AguaTodos TipoTodos)
         = Stopped s
         /\ In (SidebarError msg_periodo) (out s)
         /\ In (Warning msg_vazio) (out s).
Proof.
  destruct (@periodo_invertido pasta
              (mkWidgets (DateTuple [3; 1]%Z) (0, 1)%Q AguaTodos TipoTodos)
              tres_dias 3%Z 1%Z [])
    as (_ & l & ext & v & lo & hi & _ & _ & Hf & Hn & _ & Hr & Hrun);
    [reflexivity | discriminate | reflexivity | reflexivity |].
  exists l, ext, v. split; [exact Hf|]. split; [exact Hn|].
  split; [exact Hr|].
  eexists. split; [exact Hrun|]. cbn [out In]. split; tauto.
Defined.

(** With the same two dates in the other order the view has the three
    records: the script does not put the bounds in order. *)
Example periodo_em_ordem :
  exists l s,
    aplicar_filtros 0%nat 1%Z 3%Z tudo (mkState [tres_dias] []) = Ok l s
    /\ option_map rows (nth_error (heap s) l) = Some [dia1; dia2; dia3].
Proof. eexists _, _. split; reflexivity. Qed.

(** C6.  On a data set with records, when the view of the filter stage
    is empty the pass stops right after that stage: the store holds the
    objects of the filter stage and nothing else, the page shows the
    warning after what was already on it, and it shows no chart and no
    error message.  A missing file ends the pass too, but before the
    data set is loaded and with an error message. *)
Theorem vista_vazia_interrompe (env : Env) (w : Widgets) (d : DataFrame)
    (a b : Timestamp) (l : loc) (s1 : State) (v : DataFrame) :
  dados_integrados env = Some d ->
  rows d <> [] ->
  limites (periodo w) = Some (a, b) ->
  aplicar_filtros 0%nat a b w (mkState [d] (cabecalho d a b)) = Ok l s1 ->
  nth_error (heap s1) l = Some v ->
  empty v = true ->
  run env w
  = Stopped (mkState (heap s1) (cabecalho d a b ++ [Warning msg_vazio]))
  /\ existsb is_chart (out (final (run env w))) = false
  /\ existsb is_error (out (final (run env w))) = false
  /\ run (mkEnv None) w
     = Stopped
         (mkState []
            [Title "🌎📊 Dashboard Amazônia – Clima, Produção e Saúde";
             Error msg_sem_arquivo]).
Proof.
  intros Hd Hne Hp Hf Hn He.
  destruct (run_ok env w Hd Hne Hp) as (l' & ext & _ & Hn' & Hf' & Hrun).
  rewrite Hf in Hf'. inversion Hf'; subst l' s1. clear Hf'.
  cbn [heap] in Hn. rewrite Hn in Hn'. inversion Hn'; subst v. clear Hn'.
  rewrite He in Hrun. rewrite Hrun. cbn [final out heap].
  split; [reflexivity|].
  split; [|split].
  - rewrite existsb_app, cabecalho_sem_graficos. reflexivity.
  - rewrite existsb_app, cabecalho_sem_erro. reflexivity.
  - now apply run_sem_arquivo.
Qed.

Lemma vista_vazia_interrompe_witness :
  run pasta (mkWidgets (DateTuple [1; 3]%Z) (2, 3)%Q AguaTodos TipoTodos)
  = Stopped
      (mkState [tres_dias; tres_dias; tres_dias; mkDF colunas_base []]
         (cabecalho tres_dias 1%Z 3%Z ++ [Warning msg_vazio]))
  /\ existsb is_chart
       (out (final (run pasta
          (mkWidgets (DateTuple [1; 3]%Z) (2, 3)%Q AguaTodos TipoTodos))))
     = false.
Proof.
  destruct (@vista_vazia_interrompe pasta
              (mkWidgets (DateTuple [1; 3]%Z) (2, 3)%Q AguaTodos TipoTodos)
              tres_dias 1%Z 3%Z 3%nat
              (mkState [tres_dias; tres_dias; tres_dias;
                        mkDF colunas_base []] (cabecalho tres_dias 1%Z 3%Z))
              (mkDF colunas_base []))
    as (Hrun & Hc & _);
    [reflexivity | discriminate | reflexivity | reflexivity | reflexivity
    | reflexivity |].
  split; [exact Hrun | exact Hc].
Defined.

(** C10 (the code at the input the claim is about).  When one date of
    the range has been picked, the date control returns a tuple with
    that one date.  The script then takes the branch for tuples and
    asks for the second element: reading the period raises
    [IndexError], and the pass ends there, on a data set with records,
    with the data set loaded, nothing filtered and no chart.  The
    branch that sets both bounds to the date is taken for a value that
    is not a tuple only. *)
Theorem data_unica_levanta (env : Env) (w : Widgets) (d : DataFrame)
    (day : Z) :
  dados_integrados env = Some d ->
  rows d <> [] ->
  periodo w = DateTuple [day] ->
  (forall s, ler_periodo (periodo w) s = Raised IndexError s)
  /\ (exists s,
        run env w = Raised IndexError s
        /\ heap s = [d]
        /\ existsb is_chart (out s) = false)
  /\ (forall s,
        ler_periodo (OneDate day) s
        = Ok (to_datetime day, to_datetime day) s).
Proof.
  intros Hd Hne Hp.
  assert (Hl : limites (periodo w) = None) by now rewrite Hp.
  split; [|split].
  - intros s. now apply ler_periodo_curto.
  - destruct (datas_presentes _ Hne) as (lo & hi & Hlo & Hhi).
    unfold run, app.
    unfold bind at 1. rewrite emit_ok.
    unfold bind at 1. rewrite (carregamento_ok _ _ Hd).
    cbn [heap out init List.app List.length].
    unfold bind at 1.
    rewrite (@barra_lateral_curto 0%nat
               (mkState [d] [Title "🌎📊 Dashboard Amazônia – Clima, Produção e Saúde"])
               d w lo hi eq_refl Hlo Hhi Hl).
    eexists. split; [reflexivity|]. split; reflexivity.
  - intros s.
    assert (Ho : limites (OneDate day)
                 = Some (to_datetime day, to_datetime day)) by reflexivity.
    rewrite (ler_periodo_ok _ s Ho). unfold to_datetime.
    replace (day >? day)%Z with false
      by (symmetry; rewrite Z.gtb_ltb; apply Z.ltb_irrefl).
    rewrite app_nil_r. now destruct s.
Qed.

Lemma data_unica_levanta_witness :
  exists s,
    run pasta (mkWidgets (DateTuple [2%Z]) (0, 1)%Q AguaTodos TipoTodos)
    = Raised IndexError s
    /\ heap s = [tres_dias].
Proof.
  destruct (@data_unica_levanta pasta
              (mkWidgets (DateTuple [2%Z]) (0, 1)%Q AguaTodos TipoTodos)
              tres_dias 2%Z)
    as (_ & (s & Hr & Hh & _) & _);
    [reflexivity | discriminate | reflexivity |].
  exists s. split; assumption.
Defined.

(** *** Who writes into which frame *)

Lemma set_labels_map (l : list Row) (f : Row -> string) :
  set_labels l (map f l) = map (fun r => with_agua_label r (f r)) l.
Proof. induction l as [|r l IH]; simpl; congruence. Qed.

Lemma rotulada_rows (v : DataFrame) :
  rows (rotulada v) = map (fun r => with_agua_label r (rotulo r)) (rows v).
Proof.
  unfold rotulada, setitem_agua_label, map_flag. cbn [rows].
  rewrite map_map. apply set_labels_map.
Qed.

Lemma preserva_viz1 : preserva viz1.
Proof.
  intros l s s' v H E. rewrite (viz1_ok _ _ H) in E.
  inversion E; subst s'. cbn [heap].
  rewrite nth_error_snoc_old; [exact H|].
  eapply nth_error_in_range; eauto.
Qed.

Lemma preserva_viz2 : preserva viz2.
Proof.
  intros l s s' v H E. rewrite (viz2_ok _ _ H) in E.
  inversion E; subst s'. exact H.
Qed.

Lemma preserva_viz4 : preserva viz4.
Proof.
  intros l s s' v H E. unfold viz4 in E.
  unfold bind at 1 in E. rewrite emit_ok in E.
  unfold bind at 1 in E. rewrite (deref_mk _ _ _ H) in E.
  rewrite emit_ok in E. inversion E; subst s'. exact H.
Qed.

Lemma preserva_viz5 : preserva viz5.
Proof.
  intros l s s' v H E. unfold viz5 in E.
  unfold bind at 1 in E. rewrite emit_ok in E.
  unfold bind at 1 in E. rewrite (deref_mk _ _ _ H) in E.
  rewrite emit_ok in E. inversion E; subst s'. exact H.
Qed.

(** C9 (as amended).  On a data set with records, the data set stays
    the object it was when loaded, whatever the pass does: the filter
    stage only adds objects to the store, and so does the line chart;
    the scatter plot, the heat map and the radar write nothing.  The
    box plot writes into the view it receives: it sets the label of
    every record and adds the column [agua_label] when it is not there,
    and changes nothing else of the view and no other object; the box
    plot, the heat map and the radar that the page shows are those of
    the view so extended. *)
Theorem so_o_rotulo_altera_a_vista (env : Env) (w : Widgets)
    (d : DataFrame) (a b : Timestamp) :
  dados_integrados env = Some d ->
  rows d <> [] ->
  limites (periodo w) = Some (a, b) ->
  preserva viz1 /\ preserva viz2 /\ preserva viz4 /\ preserva viz5
  /\ exists l ext v,
       (1 <= l)%nat
       /\ aplicar_filtros 0%nat a b w (mkState [d] (cabecalho d a b))
          = Ok l (mkState (d :: ext) (cabecalho d a b))
       /\ nth_error (d :: ext) l = Some v
       /\ heap (final (run env w))
          = (if empty v then d :: ext
             else update ((d :: ext) ++ [sort_values_data v]) l (rotulada v))
       /\ nth_error (heap (final (run env w))) 0 = Some d
       /\ (forall k, k <> l ->
             nth_error
               (update ((d :: ext) ++ [sort_values_data v]) l (rotulada v)) k
             = nth_error ((d :: ext) ++ [sort_values_data v]) k)
       /\ rows (rotulada v)
          = map (fun r => with_agua_label r (rotulo r)) (rows v)
       /\ columns (rotulada v)
          = (if has_column v "agua_label" then columns v
             else columns v ++ ["agua_label"])
       /\ (if empty v then True
           else
             In (PlotlyChart
                   (FigBox (map agua_label (rows (rotulada v)))
                      (map incidencia_doencas (rows (rotulada v)))))
                (out (final (run env w)))
             /\ In (PlotlyChart
                      (FigHeat (numeric_cols (rotulada v))
                         (corr (rotulada v))))
                   (out (final (run env w)))
             /\ In (PlotlyChart
                      (FigRadar radar_categories
                         (radar_values (rotulada v))))
                   (out (final (run env w)))).
Proof.
  intros Hd Hne Hp.
  split; [exact preserva_viz1|]. split; [exact preserva_viz2|].
  split; [exact preserva_viz4|]. split; [exact preserva_viz5|].
  destruct (run_ok env w Hd Hne Hp) as (l & ext & Hl & Hn & Hf & Hrun).
  exists l, ext, (vista d a b w).
  split; [exact Hl|]. split; [exact Hf|]. split; [exact Hn|].
  assert (Hheap : heap (final (run env w))
          = (if empty (vista d a b w) then d :: ext
             else update ((d :: ext) ++ [sort_values_data (vista d a b w)])
                    l (rotulada (vista d a b w)))).
  { rewrite Hrun. now destruct (empty (vista d a b w)). }
  split; [exact Hheap|]. split; [|split; [|split; [|split]]].
  - rewrite Hheap. destruct (empty (vista d a b w)); [reflexivity|].
    rewrite nth_error_update_other by lia. reflexivity.
  - intros k Hk. now apply nth_error_update_other.
  - apply rotulada_rows.
  - reflexivity.
  - rewrite Hrun. destruct (empty (vista d a b w)); [exact I|].
    cbn [final out].
    repeat split; apply in_or_app; right; apply in_or_app; left;
      unfold paineis; cbn [In]; tauto.
Qed.

Lemma so_o_rotulo_altera_a_vista_witness :
  exists l ext v,
    aplicar_filtros 0%nat 1%Z 3%Z tudo
      (mkState [tres_dias] (cabecalho tres_dias 1%Z 3%Z))
    = Ok l (mkState (tres_dias :: ext) (cabecalho tres_dias 1%Z 3%Z))
    /\ nth_error (tres_dias :: ext) l = Some v
    /\ nth_error (heap (final (run pasta tudo))) 0 = Some tres_dias.
Proof.
  destruct (@so_o_rotulo_altera_a_vista pasta tudo tres_dias 1%Z 3%Z)
    as (_ & _ & _ & _ & l & ext & v & _ & Hf & Hn & _ & H0 & _);
    [reflexivity | discriminate | reflexivity |].
  exists l, ext, v. repeat split; assumption.
Defined.

(** The claim C9 as it stands fails at the box plot: given [tres_dias]
    as the view, it leaves a frame with one more column in its place. *)
Lemma grafico_de_caixa_altera_a_vista :
  ~ (preserva viz1 /\ preserva viz2 /\ preserva viz3 /\ preserva viz4
     /\ preserva viz5).
Proof.
  intros (_ & _ & H3 & _).
  assert (H : nth_error (heap (mkState [tres_dias] [])) 0 = Some tres_dias)
    by reflexivity.
  specialize (H3 0%nat _ _ _ H (viz3_ok _ _ H)).
  cbn [heap update nth_error] in H3. inversion H3.
Qed.
(** *** Sorting by date *)

Lemma insert_by_data_perm (r : Row) (l : list Row) :
  Permutation (r :: l) (insert_by_data r l).
Proof.
  induction l as [|h t IH]; simpl; auto.
  destruct (data r <=? data h)%Z; auto.
  rewrite perm_swap. now constructor.
Qed.

Lemma sort_rows_perm (l : list Row) : Permutation l (sort_rows l).
Proof.
  induction l as [|r l IH]; simpl; auto.
  rewrite <- insert_by_data_perm. now constructor.
Qed.

Lemma insert_by_data_sorted (r : Row) (l : list Row) :
  Sorted (fun x y => (data x <= data y)%Z) l ->
  Sorted (fun x y => (data x <= data y)%Z) (insert_by_data r l).
Proof.
  induction 1 as [|h t Hs IH Hh]; simpl; auto.
  destruct (data r <=? data h)%Z eqn:E.
  - apply Z.leb_le in E. repeat constructor; auto.
  - apply Z.leb_gt in E. constructor; auto.
    destruct t as [|h' t]; simpl in *.
    + constructor. lia.
    + destruct (data r <=? data h')%Z; constructor; auto; try lia.
      now inversion Hh.
Qed.

Lemma sort_rows_sorted (l : list Row) :
  Sorted (fun x y => (data x <= data y)%Z) (sort_rows l).
Proof.
  induction l as [|r l IH]; simpl; auto using insert_by_data_sorted.
Qed.

(** *** Sums and means *)

Lemma Qsum_cons (x : Q) (l : list Q) : Qsum (x :: l) = (x + Qsum l)%Q.
Proof. reflexivity. Qed.

Lemma Qsum_one (x : Q) : (Qsum [x] == x)%Q.
Proof. unfold Qsum; simpl. ring. Qed.

(** *** The rolling mean *)

Lemma roll_loop_length (w minp : nat) (values todo : list Q) (i : nat)
    (st : nat * Q) :
  List.length (roll_loop w minp values todo i st) = List.length todo.
Proof.
  revert i st; induction todo as [|v todo IH]; intros i st; simpl; auto.
Qed.














(** *** The vulnerability components *)

Lemma Qlen_cons (x : Q) (l : list Q) : (Qlen (x :: l) == 1 + Qlen l)%Q.
Proof.
  unfold Qlen. cbn [List.length]. rewrite Nat2Z.inj_succ.
  unfold Z.succ. rewrite inject_Z_plus. ring.
Qed.

Lemma Qlen_nonneg (l : list Q) : (0 <= Qlen l)%Q.
Proof.
  unfold Qlen. change 0%Q with (inject_Z 0). rewrite <- Zle_Qle. lia.
Qed.

Lemma Qlen_pos (l : list Q) : l <> [] -> (0 < Qlen l)%Q.
Proof.
  destruct l as [|x l]; [congruence|]. intros _.
  rewrite Qlen_cons. pose proof (Qlen_nonneg l). qlra.
Qed.

Lemma Qsum_bounds (l : list Q) :
  (forall x, In x l -> (0 <= x /\ x <= 1)%Q) ->
  (0 <= Qsum l /\ Qsum l <= Qlen l)%Q.
Proof.
  induction l as [|x l IH]; intros H.
  - unfold Qlen; simpl. split; apply Qle_refl.
  - rewrite Qsum_cons, Qlen_cons.
    destruct IH as [I0 I1]; [intros y Hy; apply H; now right|].
    destruct (H x (or_introl eq_refl)) as [X0 X1]. split; qlra.
Qed.

Lemma np_mean_bounds (l : list Q) :
  l <> [] ->
  (forall x, In x l -> (0 <= x /\ x <= 1)%Q) ->
  (0 <= np_mean l /\ np_mean l <= 1)%Q.
Proof.
  intros Hne H. unfold np_mean.
  pose proof (Qlen_pos Hne) as Hpos.
  destruct (Qsum_bounds l H) as [S0 S1]. split.
  - apply Qle_shift_div_l; [exact Hpos|]. qlra.
  - apply Qle_shift_div_r; [exact Hpos|]. qlra.
Qed.

Lemma clip1_bounds (x : Q) : (0 <= clip1 0 1 x /\ clip1 0 1 x <= 1)%Q.
Proof.
  unfold clip1. split.
  - apply Q.min_glb; [apply Q.le_max_r | discriminate].
  - apply Q.le_min_r.
Qed.

Lemma np_clip_bounds (l : list Q) (x : Q) :
  In x (np_clip l 0 1) -> (0 <= x /\ x <= 1)%Q.
Proof.
  unfold np_clip. rewrite in_map_iff. intros (y & <- & _).
  apply clip1_bounds.
Qed.

Lemma of_flag_bounds (l : list bool) (x : Q) :
  In x (map of_flag l) -> (0 <= x /\ x <= 1)%Q.
Proof.
  rewrite in_map_iff. intros ([|] & <- & _); simpl; split; discriminate.
Qed.

Lemma map_nonempty {A B} (f : A -> B) (l : list A) :
  l <> [] -> map f l <> [].
Proof. destruct l; simpl; congruence. Qed.

Lemma comp_agua_mean (v : DataFrame) :
  comp_agua v = (1 - np_mean (map of_flag (map acesso_agua_potavel (rows v))))%Q.
Proof.
  unfold comp_agua, np_mean, Qlen, len. now rewrite !length_map.
Qed.

(** C8.  On a view with at least one record the five components lie
    between 0 and 1, bounds included. *)
Theorem componentes_no_intervalo (v : DataFrame) :
  rows v <> [] ->
  (0 <= comp_clima v /\ comp_clima v <= 1)%Q
  /\ (0 <= comp_prod v /\ comp_prod v <= 1)%Q
  /\ (0 <= comp_doencas v /\ comp_doencas v <= 1)%Q
  /\ (0 <= comp_agua v /\ comp_agua v <= 1)%Q
  /\ (0 <= comp_food v /\ comp_food v <= 1)%Q.
Proof.
  intros Hne.
  assert (Hclip : forall l, l <> [] ->
            (0 <= np_mean (np_clip l 0 1) /\ np_mean (np_clip l 0 1) <= 1)%Q).
  { intros l Hl. apply np_mean_bounds.
    - unfold np_clip. now apply map_nonempty.
    - apply np_clip_bounds. }
  split; [|split; [|split; [|split]]].
  - apply Hclip. unfold div_scalar, np_abs. now repeat apply map_nonempty.
  - apply Hclip. unfold rsub_scalar, div_scalar.
    now repeat apply map_nonempty.
  - apply Hclip. unfold div_scalar. now repeat apply map_nonempty.
  - rewrite comp_agua_mean.
    destruct (@np_mean_bounds (map of_flag (map acesso_agua_potavel (rows v))))
      as [M0 M1].
    + now repeat apply map_nonempty.
    + apply of_flag_bounds.
    + split; qlra.
  - apply Hclip. unfold rsub_scalar, div_scalar.
    now repeat apply map_nonempty.
Qed.

Lemma componentes_no_intervalo_witness :
  (0 <= comp_clima tres_dias /\ comp_clima tres_dias <= 1)%Q
  /\ (0 <= comp_prod tres_dias /\ comp_prod tres_dias <= 1)%Q
  /\ (0 <= comp_doencas tres_dias /\ comp_doencas tres_dias <= 1)%Q
  /\ (0 <= comp_agua tres_dias /\ comp_agua tres_dias <= 1)%Q
  /\ (0 <= comp_food tres_dias /\ comp_food tres_dias <= 1)%Q.
Proof.
  apply (@componentes_no_intervalo tres_dias). discriminate.
Defined.
Lemma Qsum_flags (l : list bool) :
  (Qsum (map of_flag l)
   == inject_Z (Z.of_nat (List.length (filter (fun b : bool => b) l))))%Q.
Proof.
  induction l as [|[|] l IH]; cbn [map filter].
  - reflexivity.
  - rewrite Qsum_cons, IH. cbn [of_flag List.length].
    rewrite Nat2Z.inj_succ. unfold Z.succ. rewrite inject_Z_plus. ring.
  - rewrite Qsum_cons, IH. cbn [of_flag]. ring.
Qed.

Lemma filter_map_flag (l : list Row) :
  List.length (filter (fun b : bool => b) (map acesso_agua_potavel l))
  = com_agua l.
Proof.
  unfold com_agua. induction l as [|r l IH]; cbn [map filter]; auto.
  destruct (acesso_agua_potavel r); cbn [List.length]; now rewrite IH.
Qed.

Lemma com_agua_todos (l : list Row) :
  (forall r, In r l -> acesso_agua_potavel r = true) ->
  com_agua l = List.length l.
Proof.
  intros H. unfold com_agua. now rewrite filter_all.
Qed.

Lemma com_agua_nenhum (l : list Row) :
  (forall r, In r l -> acesso_agua_potavel r = false) ->
  com_agua l = 0%nat.
Proof.
  intros H. unfold com_agua. now rewrite filter_none.
Qed.

Lemma clip1_limitado (x : Q) : (clip1 0 1 x == limitado x)%Q.
Proof.
  unfold clip1, limitado.
  destruct (Qlt_le_dec x 0) as [Hneg|Hpos].
  - rewrite Q.max_r by qlra. apply Q.min_l. discriminate.
  - rewrite Q.max_l by exact Hpos.
    destruct (Qlt_le_dec 1 x) as [Hbig|Hsmall].
    + apply Q.min_r. qlra.
    + apply Q.min_l. exact Hsmall.
Qed.

Lemma Qsum_soma (f g : Row -> Q) (l : list Row) :
  (forall r, (f r == g r)%Q) -> (Qsum (map f l) == soma g l)%Q.
Proof.
  intros E. induction l as [|r l IH]; cbn [map soma].
  - reflexivity.
  - rewrite Qsum_cons, IH, (E r). reflexivity.
Qed.

Lemma np_mean_media (f g : Row -> Q) (l : list Row) :
  (forall r, (f r == g r)%Q) -> (np_mean (map f l) == media g l)%Q.
Proof.
  intros E. unfold np_mean, media, Qlen.
  rewrite length_map, (Qsum_soma f g l E). reflexivity.
Qed.

(** C3.  On a view with at least one record each component is the mean
    over the records of its normalised score (the quotient clamped to
    the interval from 0 to 1), and the water component is one minus the
    share of records with access to water: 0 when all of them have it,
    1 when none has. *)
Theorem componentes_formulas (v : DataFrame) :
  rows v <> [] ->
  (comp_clima v == media score_clima (rows v))%Q
  /\ (comp_prod v == media score_prod (rows v))%Q
  /\ (comp_doencas v == media score_doencas (rows v))%Q
  /\ (comp_food v == media score_food (rows v))%Q
  /\ (comp_agua v
      == 1 - inject_Z (Z.of_nat (com_agua (rows v)))
             / inject_Z (Z.of_nat (List.length (rows v))))%Q
  /\ ((forall r, In r (rows v) -> acesso_agua_potavel r = true) ->
      (comp_agua v == 0)%Q)
  /\ ((forall r, In r (rows v) -> acesso_agua_potavel r = false) ->
      (comp_agua v == 1)%Q)
  /\ radar_values v
     = [comp_clima v; comp_prod v; comp_doencas v; comp_agua v;
        comp_food v; comp_clima v].
Proof.
  intros Hne.
  assert (Hagua : (comp_agua v
      == 1 - inject_Z (Z.of_nat (com_agua (rows v)))
             / inject_Z (Z.of_nat (List.length (rows v))))%Q).
  { unfold comp_agua, len. now rewrite Qsum_flags, filter_map_flag. }
  assert (Hpos : ~ (inject_Z (Z.of_nat (List.length (rows v))) == 0)%Q).
  { destruct (rows v) as [|r l]; [congruence|].
    change 0%Q with (inject_Z 0). rewrite inject_Z_injective.
    cbn [List.length]. lia. }
  split; [|split; [|split; [|split; [|split; [|split; [|split]]]]]].
  - unfold comp_clima, np_clip, div_scalar, np_abs. rewrite !map_map.
    apply np_mean_media. intros r. apply clip1_limitado.
  - unfold comp_prod, np_clip, rsub_scalar, div_scalar. rewrite !map_map.
    apply np_mean_media. intros r. apply clip1_limitado.
  - unfold comp_doencas, np_clip, div_scalar. rewrite !map_map.
    apply np_mean_media. intros r. apply clip1_limitado.
  - unfold comp_food, np_clip, rsub_scalar, div_scalar. rewrite !map_map.
    apply np_mean_media. intros r. apply clip1_limitado.
  - exact Hagua.
  - intros H. rewrite Hagua, (com_agua_todos _ H). now field.
  - intros H. rewrite Hagua, (com_agua_nenhum _ H).
    change (inject_Z (Z.of_nat 0)) with 0%Q. now field.
  - reflexivity.
Qed.

(** On [tres_dias] the anomalies are -30, 45 and 250 mm: the scores are
    0.15, 0.225 and, clamped, 1. *)
Lemma componentes_formulas_witness :
  (comp_clima tres_dias == 11 # 24)%Q
  /\ (comp_agua tres_dias == 1 - 2 / 3)%Q.
Proof.
  destruct (@componentes_formulas tres_dias)
    as (Hc & _ & _ & _ & Ha & _); [discriminate|].
  split; [rewrite Hc | rewrite Ha]; reflexivity.
Defined.
(** *** The correlation matrix *)








Lemma Qsum_nonneg (l : list Q) :
  (forall x, In x l -> (0 <= x)%Q) -> (0 <= Qsum l)%Q.
Proof.
  induction l as [|x l IH]; intros H.
  - apply Qle_refl.
  - rewrite Qsum_cons.
    assert (0 <= x)%Q by (apply H; now left).
    assert (0 <= Qsum l)%Q by (apply IH; intros y Hy; apply H; now right).
    qlra.
Qed.

Lemma Qsquare_nonneg (x : Q) : (0 <= x * x)%Q.
Proof.
  destruct (Qlt_le_dec x 0) as [H|H].
  - setoid_replace (x * x)%Q with ((- x) * (- x))%Q by ring.
    apply Qmult_le_0_compat; qlra.
  - now apply Qmult_le_0_compat.
Qed.

Lemma ssqdm_nonneg (l : list Q) : (0 <= ssqdm l)%Q.
Proof.
  unfold ssqdm. apply Qsum_nonneg. intros x Hx.
  apply in_map_iff in Hx. destruct Hx as (y & <- & _).
  apply Qsquare_nonneg.
Qed.

Lemma complete_pairs_diag (xs : list (option Q)) :
  complete_pairs xs xs = map (fun x => (x, x)) (presentes xs).
Proof.
  induction xs as [|[x|] xs IH]; cbn [complete_pairs presentes map];
    congruence.
Qed.

Lemma covsum_diag (zs : list Q) :
  covsum (map (fun x => (x, x)) zs) = ssqdm zs.
Proof.
  unfold covsum, ssqdm. rewrite !map_map. cbn [fst snd].
  now rewrite map_id.
Qed.

Lemma ssqdm_nil : ssqdm [] = 0%Q.
Proof. reflexivity. Qed.

(** Computed without rounding, the entry of a column with itself is 1
    when its values are not all the same. *)
Lemma nancorr_diag (xs : list (option Q)) :
  ~ (ssqdm (presentes xs) == 0)%Q -> nancorr xs xs = Some 1%R.
Proof.
  intros Hs. unfold nancorr. rewrite complete_pairs_diag. cbv zeta.
  rewrite covsum_diag, !map_map. cbn [fst snd]. rewrite map_id, length_map.
  set (z := ssqdm (presentes xs)) in *.
  assert (Hlen : (List.length (presentes xs) <? min_periods_corr)%nat
                 = false).
  { apply Nat.ltb_ge. unfold min_periods_corr.
    destruct (presentes xs); [|simpl; lia].
    exfalso. apply Hs. reflexivity. }
  rewrite Hlen.
  assert (Hz : Qeq_bool (z * z) 0 = false).
  { apply not_true_iff_false. intros E. apply Qeq_bool_iff in E.
    apply Hs. destruct (Qmult_integral _ _ E); assumption. }
  rewrite Hz. f_equal.
  assert (Hpos : (0 < Q2R z)%R).
  { pose proof (ssqdm_nonneg (presentes xs)) as Hn. fold z in Hn.
    apply Qle_Rle in Hn. rewrite RMicromega.Q2R_0 in Hn.
    destruct Hn as [Hn|Hn]; [exact Hn|].
    exfalso. apply Hs. apply eqR_Qeq. now rewrite RMicromega.Q2R_0. }
  rewrite Q2R_mult, sqrt_square by (now apply Rlt_le).
  field. now apply Rgt_not_eq.
Qed.
Lemma Qsum_zero_each (l : list Q) :
  (forall x, In x l -> (0 <= x)%Q) ->
  (Qsum l == 0)%Q ->
  forall x, In x l -> (x == 0)%Q.
Proof.
  induction l as [|y l IH]; intros Hn Hs x Hx; [destruct Hx|].
  rewrite Qsum_cons in Hs.
  assert (Hy : (0 <= y)%Q) by (apply Hn; now left).
  assert (Hl : (0 <= Qsum l)%Q)
    by (apply Qsum_nonneg; intros z Hz; apply Hn; now right).
  destruct Hx as [<-|Hx].
  - qlra.
  - apply IH; auto.
    + intros z Hz. apply Hn. now right.
    + qlra.
Qed.


Lemma Qsum_const (l : list Q) (c : Q) :
  (forall x, In x l -> (x == c)%Q) -> (Qsum l == c * Qlen l)%Q.
Proof.
  induction l as [|y l IH]; intros H.
  - unfold Qlen; simpl. ring.
  - rewrite Qsum_cons, Qlen_cons.
    assert (E1 : (y == c)%Q) by (apply H; now left).
    assert (E2 : (Qsum l == c * Qlen l)%Q)
      by (apply IH; intros z Hz; apply H; now right).
    rewrite E1, E2. ring.
Qed.

Lemma Qsum_zeros (A : Type) (f : A -> Q) (l : list A) :
  (forall x, In x l -> (f x == 0)%Q) -> (Qsum (map f l) == 0)%Q.
Proof.
  induction l as [|y l IH]; intros H; cbn [map].
  - reflexivity.
  - assert (E1 : (f y == 0)%Q) by (apply H; now left).
    assert (E2 : (Qsum (map f l) == 0)%Q)
      by (apply IH; intros z Hz; apply H; now right).
    rewrite Qsum_cons, E1, E2. ring.
Qed.





Lemma corr_entrada (v : DataFrame) (i j : nat) (ci cj : string) :
  nth_error (numeric_cols v) i = Some ci ->
  nth_error (numeric_cols v) j = Some cj ->
  entrada (corr v) i j = Some (nancorr (series v ci) (series v cj)).
Proof.
  intros Hi Hj. unfold entrada, corr.
  rewrite (map_nth_error _ _ _ Hi). now rewrite (map_nth_error _ _ _ Hj).
Qed.




(** A view with the single record [dia1]: no entry of its matrix is a
    number, the diagonal included. *)
Example correlacao_um_registro :
  corr (mkDF colunas_base [dia1])
  = repeat (repeat None 7) 7.
Proof. reflexivity. Qed.

(** The scenario of the specification: of three records with indices
    0.1, 0.5 and 0.9, the range from 0.4 to 1.0 keeps the last two. *)
Example faixa_de_vulnerabilidade :
  exists l s,
    aplicar_filtros 0%nat 1%Z 3%Z
      (mkWidgets (DateTuple [1; 3]%Z) (0.4, 1)%Q AguaTodos TipoTodos)
      (mkState [tres_dias] []) = Ok l s
    /\ option_map rows (nth_error (heap s) l) = Some [dia2; dia3].
Proof. eexists _, _. split; reflexivity. Qed.
(* ================================================================== *)
(** ** Further properties of the script *)
(* ================================================================== *)

(** *** Loading and the date control *)

(** X1.  A tuple of the date control with fewer than two dates has no
    second bound: on a data set with records the pass raises
    [IndexError] when it reads the period, after the data set was
    loaded and before any filtering; the page shows the title, the
    header of the side bar and the period control, and nothing else. *)
Theorem tupla_curta_levanta (env : Env) (w : Widgets) (d : DataFrame)
    (ds : list Z) :
  dados_integrados env = Some d ->
  rows d <> [] ->
  periodo w = DateTuple ds ->
  (List.length ds < 2)%nat ->
  exists data_min data_max,
    min_datas (map data (rows d)) = Some data_min
    /\ max_datas (map data (rows d)) = Some data_max
    /\ run env w
       = Raised IndexError
           (mkState [d]
              [Title "🌎📊 Dashboard Amazônia – Clima, Produção e Saúde";
               SidebarHeader "⚙️ Filtros";
               SidebarDateInput "Período" (data_min, data_max)
                 data_min data_max]).
Proof.
  intros Hd Hne Hp Hlen.
  assert (Hl : limites (periodo w) = None).
  { rewrite Hp. destruct ds as [|x [|y ds]]; simpl in *; auto; lia. }
  destruct (datas_presentes _ Hne) as (lo & hi & Hlo & Hhi).
  exists lo, hi. split; [exact Hlo|]. split; [exact Hhi|].
  unfold run, app.
  unfold bind at 1. rewrite emit_ok.
  unfold bind at 1. rewrite (carregamento_ok _ _ Hd).
  cbn [heap out init List.app List.length].
  unfold bind at 1.
  rewrite (@barra_lateral_curto 0%nat
             (mkState [d] [Title "🌎📊 Dashboard Amazônia – Clima, Produção e Saúde"])
             d w lo hi eq_refl Hlo Hhi Hl).
  reflexivity.
Qed.

Lemma tupla_curta_levanta_witness :
  run pasta (mkWidgets (DateTuple []) (0, 1)%Q Sim Climaticos)
  = Raised IndexError
      (mkState [tres_dias]
         [Title "🌎📊 Dashboard Amazônia – Clima, Produção e Saúde";
          SidebarHeader "⚙️ Filtros";
          SidebarDateInput "Período" (1, 3)%Z 1%Z 3%Z]).
Proof.
  destruct (@tupla_curta_levanta pasta
              (mkWidgets (DateTuple []) (0, 1)%Q Sim Climaticos)
              tres_dias [])
    as (lo & hi & Hlo & Hhi & Hrun);
    [reflexivity | discriminate | reflexivity | simpl; lia |].
  vm_compute in Hlo, Hhi. inversion Hlo; inversion Hhi; subst lo hi.
  exact Hrun.
Defined.

(** X16.  A data set without records has no first and no last date:
    the pass raises [AttributeError] when it reads them for the period
    control, whatever the controls hold.  The data set was loaded, the
    page shows the title and the header of the side bar, and no control,
    advice, warning or chart. *)
Theorem conjunto_sem_registros_levanta (env : Env) (w : Widgets)
    (d : DataFrame) :
  dados_integrados env = Some d ->
  rows d = [] ->
  min_datas (map data (rows d)) = None
  /\ run env w
     = Raised AttributeError
         (mkState [d]
            [Title "🌎📊 Dashboard Amazônia – Clima, Produção e Saúde";
             SidebarHeader "⚙️ Filtros"]).
Proof.
  intros Hd He. split; [now rewrite He|].
  unfold run, app.
  unfold bind at 1. rewrite emit_ok.
  unfold bind at 1. rewrite (carregamento_ok _ _ Hd).
  cbn [heap out init List.app List.length].
  unfold bind at 1.
  rewrite (@barra_lateral_vazio 0%nat
             (mkState [d] [Title "🌎📊 Dashboard Amazônia – Clima, Produção e Saúde"])
             d w eq_refl He).
  reflexivity.
Qed.

Lemma conjunto_sem_registros_levanta_witness :
  run (mkEnv (Some (mkDF colunas_base []))) tudo
  = Raised AttributeError
      (mkState [mkDF colunas_base []]
         [Title "🌎📊 Dashboard Amazônia – Clima, Produção e Saúde";
          SidebarHeader "⚙️ Filtros"]).
Proof.
  apply (@conjunto_sem_registros_levanta
           (mkEnv (Some (mkDF colunas_base []))) tudo
           (mkDF colunas_base []));
    reflexivity.
Defined.

(** X2.  Without the file the pass ends at the check of line 54,
    whatever the controls hold: nothing is loaded, the page shows the
    title and the error message, and neither the advice on the period,
    nor the empty-view warning, nor any chart. *)
Theorem arquivo_ausente (env : Env) (w : Widgets) :
  dados_integrados env = None ->
  exists s,
    run env w = Stopped s
    /\ heap s = []
    /\ out s = [Title "🌎📊 Dashboard Amazônia – Clima, Produção e Saúde";
                Error msg_sem_arquivo]
    /\ existsb is_chart (out s) = false
    /\ existsb is_warning (out s) = false
    /\ existsb is_sidebar_error (out s) = false.
Proof.
  intros H. rewrite (run_sem_arquivo env w H).
  eexists. split; [reflexivity|]. repeat split.
Qed.

Lemma arquivo_ausente_witness :
  exists s,
    run (mkEnv None) (mkWidgets (DateTuple [3; 1]%Z) (0, 1)%Q Sim Climaticos)
    = Stopped s
    /\ heap s = []
    /\ existsb is_sidebar_error (out s) = false.
Proof.
  destruct (@arquivo_ausente (mkEnv None)
              (mkWidgets (DateTuple [3; 1]%Z) (0, 1)%Q Sim Climaticos)
              eq_refl) as (s & Hr & Hh & _ & _ & _ & He).
  exists s. repeat split; assumption.
Defined.

(** X3.  On a data set with records, the advice on the period is on
    the page exactly when the first bound is after the second one,
    whether the pass then stops on an empty view or draws the charts. *)
Theorem aviso_sse_invertido (env : Env) (w : Widgets) (d : DataFrame)
    (a b : Timestamp) :
  dados_integrados env = Some d ->
  rows d <> [] ->
  limites (periodo w) = Some (a, b) ->
  (existsb is_sidebar_error (out (final (run env w))) = true
   <-> (a > b)%Z).
Proof.
  intros Hd Hne Hp.
  destruct (run_ok env w Hd Hne Hp) as (l & ext & _ & _ & _ & Hrun).
  rewrite Hrun.
  assert (Hcab : existsb is_sidebar_error (cabecalho d a b) = (a >? b)%Z).
  { destruct (datas_presentes _ Hne) as (lo & hi & Hlo & Hhi).
    unfold cabecalho, barra. rewrite Hlo, Hhi. now destruct (a >? b)%Z. }
  assert (Hgt : (a >? b)%Z = true <-> (a > b)%Z).
  { rewrite Z.gtb_ltb, Z.ltb_lt. lia. }
  destruct (empty (vista d a b w)); cbn [final out];
    rewrite !existsb_app, Hcab;
    cbn [existsb is_sidebar_error paineis rodape];
    rewrite ?orb_false_r; exact Hgt.
Qed.

Lemma aviso_sse_invertido_witness :
  existsb is_sidebar_error (out (final (run pasta tudo))) = false.
Proof.
  destruct (existsb is_sidebar_error (out (final (run pasta tudo)))) eqn:E;
    [|reflexivity].
  apply (@aviso_sse_invertido pasta tudo tres_dias 1%Z 3%Z) in E;
    [discriminate E | reflexivity | discriminate | reflexivity].
Defined.

(** *** More on the filter stage *)

Lemma filtros_devolve (l : loc) (s : State) (d : DataFrame)
    (a b : Timestamp) (w : Widgets) :
  nth_error (heap s) l = Some d ->
  exists l' s',
    aplicar_filtros l a b w s = Ok l' s'
    /\ nth_error (heap s') l' = Some (vista d a b w)
    /\ out s' = out s
    /\ (forall k, (k < List.length (heap s))%nat ->
          nth_error (heap s') k = nth_error (heap s) k).
Proof.
  intros H.
  destruct (aplicar_filtros_vista _ _ a b w H) as (l' & ext & Hf & _ & Hn).
  exists l', (mkState (heap s ++ ext) (out s)).
  split; [exact Hf|]. split; [exact Hn|]. split; [reflexivity|].
  intros k Hk. cbn [heap]. now rewrite nth_error_app1.
Qed.

(** X4.  The filter stage drops no record it should keep: every record
    of the data set that passes the four criteria is in the view.  The
    view has the columns of the data set; the stage prints nothing and
    leaves every object that existed as it was. *)
Theorem filtro_completo (l : loc) (s : State) (d : DataFrame)
    (a b : Timestamp) (w : Widgets) :
  nth_error (heap s) l = Some d ->
  exists l' s' v,
    aplicar_filtros l a b w s = Ok l' s'
    /\ nth_error (heap s') l' = Some v
    /\ columns v = columns d
    /\ out s' = out s
    /\ (forall k, (k < List.length (heap s))%nat ->
          nth_error (heap s') k = nth_error (heap s) k)
    /\ forall r,
         In r (rows d) ->
         (a <= data r <= b)%Z ->
         (fst (faixa_vul w) <= indice_vulnerabilidade r)%Q ->
         (indice_vulnerabilidade r <= snd (faixa_vul w))%Q ->
         (agua_opcao w = Sim -> acesso_agua_potavel r = true) ->
         (agua_opcao w = Nao -> acesso_agua_potavel r = false) ->
         (tipo_opcao w = Climaticos -> variacao_climatica r = Some true) ->
         (tipo_opcao w = Socioeconomicos ->
          flag_incidente_alta r = Some true) ->
         In r (rows v).
Proof.
  intros H.
  destruct (filtros_devolve _ _ a b w H) as (l' & s' & Hf & Hn & Ho & Hk).
  exists l', s', (vista d a b w).
  split; [exact Hf|]. split; [exact Hn|]. split; [reflexivity|].
  split; [exact Ho|]. split; [exact Hk|].
  intros r Hin Hp Hlo Hhi Hs Hna Hc Hso.
  apply vista_In. split; [exact Hin|]. apply criterio_true.
  split; [now apply mask_periodo_true|].
  split; [now apply mask_vul_true|]. split.
  - destruct (agua_opcao w); cbn [passa_agua]; auto.
    rewrite Hna; auto.
  - destruct (tipo_opcao w); cbn [passa_tipo]; auto.
    + destruct (has_column d "variacao_climatica"); auto.
      rewrite Hc; auto.
    + destruct (has_column d "flag_incidente_alta"); auto.
      rewrite Hso; auto.
Qed.

Lemma filtro_completo_witness :
  exists l' s' v,
    aplicar_filtros 0%nat 1%Z 3%Z
      (mkWidgets (DateTuple [1; 3]%Z) (0.4, 1)%Q Sim TipoTodos)
      (mkState [tres_dias] []) = Ok l' s'
    /\ nth_error (heap s') l' = Some v
    /\ In dia3 (rows v).
Proof.
  destruct (@filtro_completo 0%nat (mkState [tres_dias] []) tres_dias
              1%Z 3%Z
              (mkWidgets (DateTuple [1; 3]%Z) (0.4, 1)%Q Sim TipoTodos)
              eq_refl)
    as (l' & s' & v & Hf & Hn & _ & _ & _ & Hin).
  exists l', s', v. split; [exact Hf|]. split; [exact Hn|].
  apply Hin; cbn; try discriminate; auto.
  split; discriminate.
Defined.

Lemma criterio_colunas (d d' : DataFrame) (a b : Timestamp) (w : Widgets)
    (r : Row) :
  columns d' = columns d -> criterio a b w d' r = criterio a b w d r.
Proof.
  intros E. unfold criterio, passa_tipo, has_column. now rewrite E.
Qed.

Lemma filter_idem {A} (f : A -> bool) (l : list A) :
  filter f (filter f l) = filter f l.
Proof.
  rewrite filter_filter. apply filter_ext. intros x. now destruct (f x).
Qed.

Lemma vista_vista (d : DataFrame) (a b : Timestamp) (w : Widgets) :
  vista (vista d a b w) a b w = vista d a b w.
Proof.
  unfold vista at 1. cbn [columns rows vista].
  rewrite (filter_ext _ (criterio a b w d)).
  - now rewrite filter_idem.
  - intros r. now apply criterio_colunas.
Qed.

(** X5.  Filtering is idempotent: the filter stage applied to its own
    view, with the same criteria, returns an equal view. *)
Theorem filtro_idempotente (l : loc) (s : State) (d : DataFrame)
    (a b : Timestamp) (w : Widgets) :
  nth_error (heap s) l = Some d ->
  exists l1 s1 v,
    aplicar_filtros l a b w s = Ok l1 s1
    /\ nth_error (heap s1) l1 = Some v
    /\ exists l2 s2,
         aplicar_filtros l1 a b w s1 = Ok l2 s2
         /\ nth_error (heap s2) l2 = Some v.
Proof.
  intros H.
  destruct (filtros_devolve _ _ a b w H) as (l1 & s1 & Hf & Hn & _ & _).
  exists l1, s1, (vista d a b w).
  split; [exact Hf|]. split; [exact Hn|].
  destruct (filtros_devolve _ _ a b w Hn) as (l2 & s2 & Hf2 & Hn2 & _ & _).
  exists l2, s2. split; [exact Hf2|]. now rewrite Hn2, vista_vista.
Qed.

Lemma filtro_idempotente_witness :
  exists l1 s1 v,
    aplicar_filtros 0%nat 1%Z 2%Z tudo (mkState [tres_dias] []) = Ok l1 s1
    /\ nth_error (heap s1) l1 = Some v
    /\ exists l2 s2,
         aplicar_filtros l1 1%Z 2%Z tudo s1 = Ok l2 s2
         /\ nth_error (heap s2) l2 = Some v.
Proof.
  apply (@filtro_idempotente 0%nat (mkState [tres_dias] []) tres_dias
           1%Z 2%Z tudo).
  reflexivity.
Defined.

(** X6.  Widening the period or the range of the index never loses a
    record: with the other two selectors unchanged, every record of the
    view of the narrower criteria is in the view of the wider ones. *)
Theorem filtro_monotono (l : loc) (s : State) (d : DataFrame)
    (a b a' b' : Timestamp) (w : Widgets) (f' : Q * Q) :
  nth_error (heap s) l = Some d ->
  (a' <= a)%Z -> (b <= b')%Z ->
  (fst f' <= fst (faixa_vul w))%Q -> (snd (faixa_vul w) <= snd f')%Q ->
  exists l1 s1 v l2 s2 v',
    aplicar_filtros l a b w s = Ok l1 s1
    /\ nth_error (heap s1) l1 = Some v
    /\ aplicar_filtros l a' b' (com_faixa w f') s = Ok l2 s2
    /\ nth_error (heap s2) l2 = Some v'
    /\ (forall r, In r (rows v) -> In r (rows v'))
    /\ (len v <= len v')%nat.
Proof.
  intros H Ha Hb Hlo Hhi.
  destruct (filtros_devolve _ _ a b w H) as (l1 & s1 & Hf1 & Hn1 & _ & _).
  destruct (filtros_devolve _ _ a' b' (com_faixa w f') H)
    as (l2 & s2 & Hf2 & Hn2 & _ & _).
  exists l1, s1, (vista d a b w), l2, s2, (vista d a' b' (com_faixa w f')).
  split; [exact Hf1|]. split; [exact Hn1|].
  split; [exact Hf2|]. split; [exact Hn2|].
  assert (Himp : forall r, criterio a b w d r = true ->
                   criterio a' b' (com_faixa w f') d r = true).
  { intros r Hc. apply criterio_true in Hc.
    destruct Hc as (Hp & Hv & Hag & Ht).
    apply criterio_true. cbn [com_faixa faixa_vul agua_opcao tipo_opcao].
    apply mask_periodo_true in Hp. apply mask_vul_true in Hv.
    destruct Hv as [Hv1 Hv2].
    split; [apply mask_periodo_true; lia|].
    split; [|split; assumption].
    apply mask_vul_true. cbn [fst snd]. split; qlra. }
  split.
  - intros r Hr. apply vista_In in Hr. apply vista_In.
    destruct Hr as [Hin Hc]. split; auto.
  - unfold len, vista. cbn [rows].
    induction (rows d) as [|r rs IH]; cbn [filter]; auto.
    destruct (criterio a b w d r) eqn:E.
    + rewrite (Himp r E). cbn [List.length]. lia.
    + destruct (criterio a' b' (com_faixa w f') d r); cbn [List.length]; lia.
Qed.

Lemma filtro_monotono_witness :
  exists l1 s1 v l2 s2 v',
    aplicar_filtros 0%nat 2%Z 2%Z
      (mkWidgets (DateTuple [2; 2]%Z) (0.4, 0.6)%Q AguaTodos TipoTodos)
      (mkState [tres_dias] []) = Ok l1 s1
    /\ nth_error (heap s1) l1 = Some v
    /\ aplicar_filtros 0%nat 1%Z 3%Z
         (com_faixa
            (mkWidgets (DateTuple [2; 2]%Z) (0.4, 0.6)%Q AguaTodos TipoTodos)
            (0, 1)%Q)
         (mkState [tres_dias] []) = Ok l2 s2
    /\ nth_error (heap s2) l2 = Some v'
    /\ (forall r, In r (rows v) -> In r (rows v'))
    /\ (len v <= len v')%nat.
Proof.
  apply (@filtro_monotono 0%nat (mkState [tres_dias] []) tres_dias
           2%Z 2%Z 1%Z 3%Z
           (mkWidgets (DateTuple [2; 2]%Z) (0.4, 0.6)%Q AguaTodos TipoTodos)
           (0, 1)%Q); cbn; try reflexivity; discriminate.
Defined.
Lemma filter_split_length {A} (f g h : A -> bool) (l : list A) :
  (forall x, f x = g x || h x) ->
  (forall x, g x && h x = false) ->
  List.length (filter f l)
  = (List.length (filter g l) + List.length (filter h l))%nat.
Proof.
  intros Hor Hdis. induction l as [|x l IH]; cbn [filter]; auto.
  specialize (Hor x). specialize (Hdis x).
  destruct (f x), (g x), (h x); cbn in *; try discriminate;
    cbn [List.length]; lia.
Qed.

Lemma criterio_agua (a b : Timestamp) (w : Widgets) (d : DataFrame)
    (r : Row) (o : AguaOpcao) :
  criterio a b (com_agua_opcao w o) d r
  = criterio a b (com_agua_opcao w AguaTodos) d r && passa_agua o r.
Proof.
  unfold criterio. cbn [com_agua_opcao faixa_vul agua_opcao tipo_opcao
                        passa_agua].
  destruct (mask_periodo a b r), (mask_vul (faixa_vul w) r),
    (passa_agua o r), (passa_tipo (tipo_opcao w) d r); reflexivity.
Qed.

(** X7.  The water selector splits the view: with the other criteria
    fixed, every record kept under "Todos" is kept under exactly one of
    "Sim" and "Nao", and the sizes of those two views add up to the
    size of the view under "Todos". *)
Theorem agua_particiona (l : loc) (s : State) (d : DataFrame)
    (a b : Timestamp) (w : Widgets) :
  nth_error (heap s) l = Some d ->
  exists lt st vt ls ss vs ln sn vn,
    aplicar_filtros l a b (com_agua_opcao w AguaTodos) s = Ok lt st
    /\ nth_error (heap st) lt = Some vt
    /\ aplicar_filtros l a b (com_agua_opcao w Sim) s = Ok ls ss
    /\ nth_error (heap ss) ls = Some vs
    /\ aplicar_filtros l a b (com_agua_opcao w Nao) s = Ok ln sn
    /\ nth_error (heap sn) ln = Some vn
    /\ (len vt = len vs + len vn)%nat
    /\ (forall r, In r (rows vt) <-> In r (rows vs) \/ In r (rows vn))
    /\ (forall r, In r (rows vs) -> In r (rows vn) -> False).
Proof.
  intros H.
  destruct (filtros_devolve _ _ a b (com_agua_opcao w AguaTodos) H)
    as (lt & st & Hft & Hnt & _ & _).
  destruct (filtros_devolve _ _ a b (com_agua_opcao w Sim) H)
    as (ls & ss & Hfs & Hns & _ & _).
  destruct (filtros_devolve _ _ a b (com_agua_opcao w Nao) H)
    as (ln & sn & Hfn & Hnn & _ & _).
  exists lt, st, (vista d a b (com_agua_opcao w AguaTodos)),
    ls, ss, (vista d a b (com_agua_opcao w Sim)),
    ln, sn, (vista d a b (com_agua_opcao w Nao)).
  repeat (split; [assumption|]).
  split; [|split].
  - unfold len, vista. cbn [rows]. apply filter_split_length.
    + intros r. rewrite (criterio_agua a b w d r Sim),
        (criterio_agua a b w d r Nao). cbn [passa_agua].
      destruct (criterio a b (com_agua_opcao w AguaTodos) d r),
        (acesso_agua_potavel r); reflexivity.
    + intros r. rewrite (criterio_agua a b w d r Sim),
        (criterio_agua a b w d r Nao). cbn [passa_agua].
      destruct (criterio a b (com_agua_opcao w AguaTodos) d r),
        (acesso_agua_potavel r); reflexivity.
  - intros r. rewrite !vista_In, (criterio_agua a b w d r Sim),
      (criterio_agua a b w d r Nao). cbn [passa_agua].
    destruct (criterio a b (com_agua_opcao w AguaTodos) d r),
      (acesso_agua_potavel r); cbn; intuition discriminate.
  - intros r. rewrite !vista_In, (criterio_agua a b w d r Sim),
      (criterio_agua a b w d r Nao). cbn [passa_agua].
    destruct (criterio a b (com_agua_opcao w AguaTodos) d r),
      (acesso_agua_potavel r); cbn; intuition discriminate.
Qed.

Lemma agua_particiona_witness :
  exists vt vs vn,
    (len vt = len vs + len vn)%nat
    /\ rows vt = [dia1; dia2; dia3]
    /\ rows vs = [dia1; dia3]
    /\ rows vn = [dia2].
Proof.
  destruct (@agua_particiona 0%nat (mkState [tres_dias] []) tres_dias
              1%Z 3%Z tudo eq_refl)
    as (lt & st & vt & ls & ss & vs & ln & sn & vn
        & Hft & Hnt & Hfs & Hns & Hfn & Hnn & Hlen & _).
  exists vt, vs, vn. split; [exact Hlen|].
  vm_compute in Hft. inversion Hft; subst lt st. clear Hft.
  vm_compute in Hfs. inversion Hfs; subst ls ss. clear Hfs.
  vm_compute in Hfn. inversion Hfn; subst ln sn. clear Hfn.
  vm_compute in Hnt, Hns, Hnn.
  inversion Hnt; inversion Hns; inversion Hnn. repeat split.
Defined.

(** *** The page *)

Lemma paineis_tipos (v : DataFrame) :
  map tipo_do_grafico (graficos_da_pagina (paineis v))
  = [Some Linha; Some Dispersao; Some Caixa; Some Calor; Some Radar].
Proof. reflexivity. Qed.

Lemma graficos_da_pagina_cabecalho (d : DataFrame) (a b : Timestamp) :
  graficos_da_pagina (cabecalho d a b) = [].
Proof.
  unfold cabecalho, barra.
  destruct (min_datas (map data (rows d))), (max_datas (map data (rows d)));
    try reflexivity.
  now destruct (a >? b)%Z.
Qed.

Lemma existsb_warning_cabecalho (d : DataFrame) (a b : Timestamp) :
  existsb is_warning (cabecalho d a b) = false.
Proof.
  unfold cabecalho, barra.
  destruct (min_datas (map data (rows d))), (max_datas (map data (rows d)));
    try reflexivity.
  now destruct (a >? b)%Z.
Qed.

(** X8.  A pass on an existing file with records and a usable period
    shows either the empty-view warning and no chart, or no warning and
    exactly the five charts in the order line, scatter, box, heat map,
    radar; it ends normally in the second case only. *)
Theorem pagina_aviso_ou_cinco_graficos (env : Env) (w : Widgets)
    (d : DataFrame) (a b : Timestamp) :
  dados_integrados env = Some d ->
  rows d <> [] ->
  limites (periodo w) = Some (a, b) ->
  (exists s,
     run env w = Stopped s
     /\ existsb is_warning (out s) = true
     /\ graficos_da_pagina (out s) = [])
  \/ (exists s,
        run env w = Ok tt s
        /\ existsb is_warning (out s) = false
        /\ map tipo_do_grafico (graficos_da_pagina (out s))
           = [Some Linha; Some Dispersao; Some Caixa; Some Calor;
              Some Radar]).
Proof.
  intros Hd Hne Hp.
  destruct (run_ok env w Hd Hne Hp) as (l & ext & _ & _ & _ & Hrun).
  rewrite Hrun. destruct (empty (vista d a b w)).
  - left. eexists. split; [reflexivity|]. cbn [out]. split.
    + rewrite existsb_app. cbn. apply orb_true_r.
    + unfold graficos_da_pagina. rewrite filter_app.
      fold (graficos_da_pagina (cabecalho d a b)).
      now rewrite graficos_da_pagina_cabecalho.
  - right. eexists. split; [reflexivity|]. cbn [out]. split.
    + rewrite !existsb_app, existsb_warning_cabecalho. reflexivity.
    + unfold graficos_da_pagina. rewrite !filter_app.
      fold (graficos_da_pagina (cabecalho d a b)).
      fold (graficos_da_pagina (paineis (vista d a b w))).
      rewrite graficos_da_pagina_cabecalho.
      cbn [List.app filter is_chart rodape].
      rewrite app_nil_r. apply paineis_tipos.
Qed.

Lemma pagina_aviso_ou_cinco_graficos_witness :
  exists s,
    run pasta tudo = Ok tt s
    /\ map tipo_do_grafico (graficos_da_pagina (out s))
       = [Some Linha; Some Dispersao; Some Caixa; Some Calor; Some Radar].
Proof.
  destruct (@pagina_aviso_ou_cinco_graficos pasta tudo tres_dias 1%Z 3%Z)
    as [(s & Hr & Hw & _)|(s & Hr & _ & Hg)];
    [reflexivity | discriminate | reflexivity | |].
  - exfalso.
    destruct (@run_ok pasta tudo tres_dias 1%Z 3%Z)
      as (l & ext & _ & _ & _ & Hrun);
      [reflexivity | discriminate | reflexivity |].
    rewrite Hrun in Hr. discriminate Hr.
  - exists s. split; assumption.
Defined.
(** *** The label column *)

Lemma has_column_rotulada (v : DataFrame) :
  has_column (rotulada v) "agua_label" = true.
Proof.
  unfold rotulada, setitem_agua_label.
  destruct (has_column v "agua_label") eqn:E.
  - unfold has_column in *. cbn [columns]. now rewrite E.
  - unfold has_column. cbn [columns]. rewrite existsb_app.
    cbn. apply orb_true_r.
Qed.

Lemma rotulada_rotulada (v : DataFrame) : rotulada (rotulada v) = rotulada v.
Proof.
  unfold rotulada at 1. unfold setitem_agua_label.
  rewrite has_column_rotulada. unfold map_flag. rewrite map_map.
  rewrite set_labels_map.
  destruct (rotulada v) as [cs rs] eqn:E. cbn [columns rows]. f_equal.
  assert (Hr : rs = rows (rotulada v)) by now rewrite E.
  rewrite Hr, rotulada_rows, map_map. apply map_ext.
  intros r. reflexivity.
Qed.

Lemma update_update {A} (h : list A) (k : nat) (x y : A) :
  update (update h k x) k y = update h k y.
Proof.
  revert k; induction h as [|z h IH]; intros [|k]; simpl; auto.
  now rewrite IH.
Qed.

(** X9.  Writing the label column is idempotent: after the box plot has
    run once the view has the column [agua_label], and running the box
    plot again on it leaves the store as it is (the column is
    overwritten, not added a second time) and draws the same chart. *)
Theorem rotulo_idempotente (l : loc) (s : State) (v : DataFrame) :
  nth_error (heap s) l = Some v ->
  exists s1 s2 v1 e1 e2,
    viz3 l s = Ok tt s1
    /\ nth_error (heap s1) l = Some v1
    /\ has_column v1 "agua_label" = true
    /\ viz3 l s1 = Ok tt s2
    /\ heap s2 = heap s1
    /\ out s1 = out s ++ [e1; e2]
    /\ out s2 = out s1 ++ [e1; e2].
Proof.
  intros H.
  assert (Hl : (l < List.length (heap s))%nat)
    by (eapply nth_error_in_range; eauto).
  assert (H1 : nth_error (update (heap s) l (rotulada v)) l
               = Some (rotulada v))
    by now apply nth_error_update_same.
  eexists _, _, (rotulada v), _, _.
  split; [apply (viz3_ok _ _ H)|]. cbn [heap out].
  split; [exact H1|]. split; [apply has_column_rotulada|].
  split; [apply (@viz3_ok l _ (rotulada v)); exact H1|]. cbn [heap out].
  split; [now rewrite update_update, rotulada_rotulada|].
  split; [reflexivity|].
  unfold paineis. cbn [skipn firstn]. now rewrite rotulada_rotulada.
Qed.

Lemma rotulo_idempotente_witness :
  exists s1 s2 v1,
    viz3 0%nat (mkState [tres_dias] []) = Ok tt s1
    /\ nth_error (heap s1) 0 = Some v1
    /\ columns v1 = colunas_base ++ ["agua_label"]
    /\ viz3 0%nat s1 = Ok tt s2
    /\ heap s2 = heap s1.
Proof.
  destruct (@rotulo_idempotente 0%nat (mkState [tres_dias] []) tres_dias
              eq_refl)
    as (s1 & s2 & v1 & e1 & e2 & H1 & Hn & _ & H2 & Hh & _).
  exists s1, s2, v1. split; [exact H1|]. split; [exact Hn|].
  split; [|split; assumption].
  vm_compute in H1. inversion H1; subst s1. clear H1.
  vm_compute in Hn. inversion Hn. reflexivity.
Defined.

Lemma numeric_cols_rotulada (v : DataFrame) :
  numeric_cols (rotulada v) = numeric_cols v.
Proof.
  unfold numeric_cols, rotulada, setitem_agua_label. cbn [columns].
  destruct (has_column v "agua_label"); [reflexivity|].
  rewrite filter_app. cbn. apply app_nil_r.
Qed.

Lemma series_rotulada (v : DataFrame) (c : string) :
  series (rotulada v) c = series v c.
Proof.
  unfold series. rewrite rotulada_rows, map_map. apply map_ext.
  intros r. reflexivity.
Qed.

Lemma corr_rotulada (v : DataFrame) : corr (rotulada v) = corr v.
Proof.
  unfold corr. rewrite numeric_cols_rotulada.
  apply map_ext. intros a. apply map_ext. intros b.
  now rewrite !series_rotulada.
Qed.

Lemma len_rotulada (v : DataFrame) : len (rotulada v) = len v.
Proof. unfold len. now rewrite rotulada_rows, length_map. Qed.

Lemma radar_values_rotulada (v : DataFrame) :
  radar_values (rotulada v) = radar_values v.
Proof.
  unfold radar_values, comp_clima, comp_prod, comp_doencas, comp_agua,
    comp_food.
  rewrite len_rotulada, rotulada_rows, !map_map. reflexivity.
Qed.

(** X10.  The label column does not reach the numbers: the heat map and
    the radar, which are drawn after the box plot has written the
    column into the view, get the numeric columns, the correlation
    matrix and the component values of the view as the filter stage
    left it. *)
Theorem rotulo_nao_afeta_metricas (l : loc) (s : State) (v : DataFrame) :
  nth_error (heap s) l = Some v ->
  exists s3,
    viz3 l s = Ok tt s3
    /\ viz4 l s3
       = Ok tt
           (mkState (heap s3)
              (out s3
               ++ [Subheader
                     "📊 Heatmap de Correlação entre Variáveis Numéricas";
                   PlotlyChart (FigHeat (numeric_cols v) (corr v))]))
    /\ viz5 l s3
       = Ok tt
           (mkState (heap s3)
              (out s3
               ++ [Subheader "🕸️ Radar – Componentes Médios da Vulnerabilidade";
                   PlotlyChart (FigRadar radar_categories (radar_values v))])).
Proof.
  intros H.
  assert (Hl : (l < List.length (heap s))%nat)
    by (eapply nth_error_in_range; eauto).
  assert (H1 : nth_error (update (heap s) l (rotulada v)) l
               = Some (rotulada v))
    by now apply nth_error_update_same.
  eexists. split; [apply (viz3_ok _ _ H)|]. cbn [heap out]. split.
  - rewrite (@viz4_ok l _ v) by exact H1. cbn [heap out].
    unfold paineis. cbn [skipn firstn].
    now rewrite numeric_cols_rotulada, corr_rotulada.
  - rewrite (@viz5_ok l _ v) by exact H1. cbn [heap out].
    unfold paineis. cbn [skipn].
    now rewrite radar_values_rotulada.
Qed.

Lemma rotulo_nao_afeta_metricas_witness :
  exists s3 s4,
    viz3 0%nat (mkState [tres_dias] []) = Ok tt s3
    /\ viz5 0%nat s3 = Ok tt s4
    /\ out s4
       = out s3
         ++ [Subheader "🕸️ Radar – Componentes Médios da Vulnerabilidade";
             PlotlyChart
               (FigRadar radar_categories (radar_values tres_dias))].
Proof.
  destruct (@rotulo_nao_afeta_metricas 0%nat (mkState [tres_dias] [])
              tres_dias eq_refl) as (s3 & H3 & _ & H5).
  eexists s3, _. split; [exact H3|]. split; [exact H5|]. reflexivity.
Defined.
(** *** The shape of the charts *)

Lemma sort_rows_length (l : list Row) :
  List.length (sort_rows l) = List.length l.
Proof. symmetry. apply Permutation_length, sort_rows_perm. Qed.

Lemma chuva_rol_length (ds : DataFrame) :
  List.length (chuva_rol ds) = len ds.
Proof.
  unfold chuva_rol, len, rolling_mean.
  destruct (has_column ds "chuva_rol_30d");
    now rewrite ?roll_loop_length, length_map.
Qed.

Lemma producao_rol_length (ds : DataFrame) :
  List.length (producao_rol ds) = len ds.
Proof.
  unfold producao_rol, len, rolling_mean.
  destruct (has_column ds "producao_rol_7d");
    now rewrite ?roll_loop_length, length_map.
Qed.

Lemma corr_quadrada (v : DataFrame) :
  List.length (corr v) = List.length (numeric_cols v)
  /\ forallb (fun linha : list (option R) =>
                (List.length linha =? List.length (numeric_cols v))%nat)
       (corr v) = true.
Proof.
  unfold corr. split; [apply length_map|].
  apply forallb_forall. intros linha Hin.
  apply in_map_iff in Hin. destruct Hin as (a & <- & _).
  rewrite length_map. apply Nat.eqb_refl.
Qed.

(** X11.  The charts get series that fit together: for a view of [n]
    records the line chart has [n] dates and [n] values per smoothed
    series (whether these come from the data set or are computed), the
    scatter and the box plot have [n] values per axis, the heat map is
    a square matrix with one label per line, and the radar has one
    value per axis. *)
Theorem graficos_alinhados (l : loc) (s : State) (v : DataFrame) :
  nth_error (heap s) l = Some v ->
  exists s' novos,
    graficos l s = Ok tt s'
    /\ out s' = out s ++ novos
    /\ forallb (bem_formado (len v)) novos = true.
Proof.
  intros H. eexists _, (paineis v).
  split; [apply (graficos_ok _ _ H)|]. split; [reflexivity|].
  destruct (corr_quadrada (rotulada v)) as [Hc1 Hc2].
  unfold paineis.
  cbn [forallb bem_formado andb].
  rewrite chuva_rol_length, producao_rol_length.
  unfold len. cbn [rows sort_values_data].
  rewrite !length_map, sort_rows_length.
  unfold map_flag. rewrite !length_map.
  rewrite rotulada_rows, !length_map.
  rewrite Hc1, Hc2, !Nat.eqb_refl. reflexivity.
Qed.

Lemma graficos_alinhados_witness :
  exists s' novos,
    graficos 0%nat (mkState [tres_dias] []) = Ok tt s'
    /\ out s' = novos
    /\ forallb (bem_formado 3) novos = true.
Proof.
  destruct (@graficos_alinhados 0%nat (mkState [tres_dias] []) tres_dias
              eq_refl) as (s' & novos & Hg & Ho & Hb).
  exists s', novos. split; [exact Hg|]. split; [exact Ho|exact Hb].
Defined.
(** *** The range of the correlation *)

Lemma Qsum_quadrado (l : list (Q * Q)) (k m : Q) :
  (Qsum (map (fun p => (k * snd p - m * fst p) * (k * snd p - m * fst p)) l)
   == k * k * Qsum (map (fun p => snd p * snd p) l)
      - 2 * k * m * Qsum (map (fun p => fst p * snd p) l)
      + m * m * Qsum (map (fun p => fst p * fst p) l))%Q.
Proof.
  induction l as [|p l IH]; cbn [map].
  - unfold Qsum; simpl. ring.
  - rewrite !Qsum_cons, IH. ring.
Qed.

Lemma Qsum_quadrados_zero (l : list (Q * Q)) :
  (Qsum (map (fun p => fst p * fst p) l) == 0)%Q ->
  (Qsum (map (fun p => fst p * snd p) l) == 0)%Q.
Proof.
  intros H. apply Qsum_zeros. intros p Hp.
  assert (E : (fst p * fst p == 0)%Q).
  { apply (@Qsum_zero_each (map (fun p => fst p * fst p)%Q l)).
    - intros x Hx. apply in_map_iff in Hx. destruct Hx as (q & <- & _).
      apply Qsquare_nonneg.
    - exact H.
    - apply in_map_iff. now exists p. }
  destruct (Qmult_integral _ _ E) as [E0|E0]; rewrite E0; ring.
Qed.

(** Cauchy-Schwarz for finite sums of rationals. *)
Lemma cauchy_schwarz (l : list (Q * Q)) :
  (Qsum (map (fun p => fst p * snd p) l)
   * Qsum (map (fun p => fst p * snd p) l)
   <= Qsum (map (fun p => fst p * fst p) l)
      * Qsum (map (fun p => snd p * snd p) l))%Q.
Proof.
  set (A := Qsum (map (fun p => fst p * fst p)%Q l)).
  set (B := Qsum (map (fun p => snd p * snd p)%Q l)).
  set (C := Qsum (map (fun p => fst p * snd p)%Q l)).
  assert (HA : (0 <= A)%Q).
  { apply Qsum_nonneg. intros x Hx. apply in_map_iff in Hx.
    destruct Hx as (q & <- & _). apply Qsquare_nonneg. }
  assert (HB : (0 <= B)%Q).
  { apply Qsum_nonneg. intros x Hx. apply in_map_iff in Hx.
    destruct Hx as (q & <- & _). apply Qsquare_nonneg. }
  destruct (Qeq_dec A 0) as [E|E].
  - assert (EC : (C == 0)%Q) by now apply Qsum_quadrados_zero.
    rewrite EC, E. qlra.
  - assert (Hpos : (0 < A)%Q).
    { destruct (Qlt_le_dec 0 A) as [H|H]; [exact H|].
      exfalso. apply E. qlra. }
    assert (Hq : (0 <= A * A * B - 2 * A * C * C + C * C * A)%Q).
    { pose proof (Qsum_quadrado l A C) as Eq. fold A B C in Eq.
      rewrite <- Eq. apply Qsum_nonneg.
      intros x Hx. apply in_map_iff in Hx. destruct Hx as (q & <- & _).
      apply Qsquare_nonneg. }
    assert (Hf : (0 <= A * (A * B - C * C))%Q).
    { setoid_replace (A * (A * B - C * C))%Q
        with (A * A * B - 2 * A * C * C + C * C * A)%Q by ring.
      exact Hq. }
    destruct (Qlt_le_dec (A * B - C * C) 0) as [Hneg|Hok]; [|qlra].
    exfalso.
    assert (Hlt : (A * (A * B - C * C) < 0)%Q).
    { setoid_replace 0%Q with (A * 0)%Q by ring.
      apply Qmult_lt_l; assumption. }
    qlra.
Qed.

Lemma covsum_centrado (ps : list (Q * Q)) :
  let mx := np_mean (map fst ps) in
  let my := np_mean (map snd ps) in
  let l := map (fun p => (fst p - mx, snd p - my)%Q) ps in
  covsum ps = Qsum (map (fun p => fst p * snd p)%Q l)
  /\ ssqdm (map fst ps) = Qsum (map (fun p => fst p * fst p)%Q l)
  /\ ssqdm (map snd ps) = Qsum (map (fun p => snd p * snd p)%Q l).
Proof.
  cbv zeta. unfold covsum, ssqdm. rewrite !map_map. cbn [fst snd].
  repeat split.
Qed.

Lemma covsum_quadrado (ps : list (Q * Q)) :
  (covsum ps * covsum ps <= ssqdm (map fst ps) * ssqdm (map snd ps))%Q.
Proof.
  destruct (covsum_centrado ps) as (-> & -> & ->). apply cauchy_schwarz.
Qed.

Lemma nancorr_intervalo (xs ys : list (option Q)) (r : R) :
  nancorr xs ys = Some r -> (-1 <= r <= 1)%R.
Proof.
  unfold nancorr. cbv zeta.
  set (ps := complete_pairs xs ys).
  destruct (List.length ps <? min_periods_corr)%nat; [discriminate|].
  destruct (Qeq_bool (ssqdm (map fst ps) * ssqdm (map snd ps)) 0) eqn:E;
    [discriminate|].
  intros Hr. inversion Hr; subst r. clear Hr.
  set (p := (ssqdm (map fst ps) * ssqdm (map snd ps))%Q) in *.
  set (c := covsum ps).
  assert (Hp0 : (0 <= p)%Q).
  { apply Qmult_le_0_compat; apply ssqdm_nonneg. }
  assert (Hpne : ~ (p == 0)%Q).
  { intros H0. apply Qeq_bool_iff in H0. congruence. }
  assert (Hcs : (c * c <= p)%Q) by apply covsum_quadrado.
  assert (Hppos : (0 < Q2R p)%R).
  { apply Qle_Rle in Hp0. rewrite RMicromega.Q2R_0 in Hp0.
    destruct Hp0 as [H|H]; [exact H|].
    exfalso. apply Hpne. apply eqR_Qeq. now rewrite RMicromega.Q2R_0. }
  assert (Hd : (0 < sqrt (Q2R p))%R) by now apply sqrt_lt_R0.
  assert (Habs : (Rabs (Q2R c) <= sqrt (Q2R p))%R).
  { rewrite <- sqrt_Rsqr_abs. apply sqrt_le_1_alt.
    unfold Rsqr. rewrite <- Q2R_mult. now apply Qle_Rle. }
  assert (Hlohi : (- sqrt (Q2R p) <= Q2R c <= sqrt (Q2R p))%R).
  { unfold Rabs in Habs. destruct (Rcase_abs (Q2R c)); Lra.lra. }
  destruct Hlohi as [Hlo Hhi].
  split.
  - apply Rmult_le_reg_r with (r := sqrt (Q2R p)); [exact Hd|].
    unfold Rdiv. rewrite Rmult_assoc, Rinv_l by now apply Rgt_not_eq.
    Lra.lra.
  - apply Rmult_le_reg_r with (r := sqrt (Q2R p)); [exact Hd|].
    unfold Rdiv. rewrite Rmult_assoc, Rinv_l by now apply Rgt_not_eq.
    Lra.lra.
Qed.

(** X12.  Every entry of the correlation matrix that is a number lies
    between -1 and 1, the range the heat map's colour scale is fixed
    to. *)
Theorem correlacao_no_intervalo (v : DataFrame) (i j : nat) (r : R) :
  entrada (corr v) i j = Some (Some r) -> (-1 <= r <= 1)%R.
Proof.
  unfold entrada, corr. intros H.
  destruct (nth_error
              (map (fun a => map (fun b => nancorr (series v a) (series v b))
                               (numeric_cols v)) (numeric_cols v)) i)
    as [linha|] eqn:Ei; [|discriminate].
  rewrite nth_error_map in Ei.
  destruct (nth_error (numeric_cols v) i) as [a|]; [|discriminate].
  cbn [option_map] in Ei. inversion Ei; subst linha. clear Ei.
  rewrite nth_error_map in H.
  destruct (nth_error (numeric_cols v) j) as [b|]; [|discriminate].
  cbn [option_map] in H. inversion H as [Hn].
  now apply nancorr_intervalo with (xs := series v a) (ys := series v b).
Qed.

Lemma correlacao_no_intervalo_witness : (-1 <= 1 <= 1)%R.
Proof.
  apply (@correlacao_no_intervalo tres_dias 0 0 1%R).
  rewrite (@corr_entrada tres_dias 0 0 "chuvas_reais_mm" "chuvas_reais_mm")
    by reflexivity.
  rewrite nancorr_diag; [reflexivity|].
  intros E. vm_compute in E. discriminate E.
Defined.
(** *** Where the components saturate *)

Lemma np_mean_const (l : list Q) (c : Q) :
  l <> [] -> (forall x, In x l -> (x == c)%Q) -> (np_mean l == c)%Q.
Proof.
  intros Hne H. unfold np_mean. rewrite (Qsum_const _ H).
  pose proof (Qlen_pos Hne) as Hp.
  field. intros E. rewrite E in Hp. now apply (Qlt_irrefl 0).
Qed.

Lemma clip1_acima (x : Q) : (1 <= x)%Q -> (clip1 0 1 x == 1)%Q.
Proof.
  intros H. unfold clip1.
  rewrite Q.max_l by qlra. apply Q.min_r. exact H.
Qed.

Lemma clip1_abaixo (x : Q) : (x <= 0)%Q -> (clip1 0 1 x == 0)%Q.
Proof.
  intros H. unfold clip1.
  rewrite Q.max_r by exact H. apply Q.min_l. discriminate.
Qed.

Lemma media_scores_const (f : Row -> Q) (l : list Row) (c : Q) :
  l <> [] ->
  (forall r, In r l -> (f r == c)%Q) ->
  (np_mean (map f l) == c)%Q.
Proof.
  intros Hne H. apply np_mean_const.
  - now apply map_nonempty.
  - intros x Hx. apply in_map_iff in Hx. destruct Hx as (r & <- & Hr).
    now apply H.
Qed.

(** X14.  The components saturate at the constants of the formulas: on
    a view with at least one record, the climate component is 1 when
    every anomaly is at least 200 mm in absolute value, the production
    component is 0 when every record produces at least 20 t, the
    disease component is 1 when every incidence is at least 6, and the
    food component is 0 when every indicator is at least 100. *)
Theorem componentes_saturam (v : DataFrame) :
  rows v <> [] ->
  ((forall r, In r (rows v) -> (200 <= Qabs (anomalia_chuva_mm r))%Q) ->
   (comp_clima v == 1)%Q)
  /\ ((forall r, In r (rows v) -> (20 <= volume_producao_tons r)%Q) ->
      (comp_prod v == 0)%Q)
  /\ ((forall r, In r (rows v) -> (6 <= incidencia_doencas r)%Q) ->
      (comp_doencas v == 1)%Q)
  /\ ((forall r, In r (rows v) ->
         (100 <= indicador_seguranca_alimentar r)%Q) ->
      (comp_food v == 0)%Q).
Proof.
  intros Hne. split; [|split; [|split]].
  - intros H. unfold comp_clima, np_clip, div_scalar, np_abs.
    rewrite !map_map. apply media_scores_const; [exact Hne|].
    intros r Hr. apply clip1_acima.
    apply Qle_shift_div_l; [reflexivity|]. specialize (H r Hr). qlra.
  - intros H. unfold comp_prod, np_clip, rsub_scalar, div_scalar.
    rewrite !map_map. apply media_scores_const; [exact Hne|].
    intros r Hr. apply clip1_abaixo.
    assert (1 <= volume_producao_tons r / 20)%Q.
    { apply Qle_shift_div_l; [reflexivity|]. specialize (H r Hr). qlra. }
    qlra.
  - intros H. unfold comp_doencas, np_clip, div_scalar.
    rewrite !map_map. apply media_scores_const; [exact Hne|].
    intros r Hr. apply clip1_acima.
    apply Qle_shift_div_l; [reflexivity|]. specialize (H r Hr). qlra.
  - intros H. unfold comp_food, np_clip, rsub_scalar, div_scalar.
    rewrite !map_map. apply media_scores_const; [exact Hne|].
    intros r Hr. apply clip1_abaixo.
    assert (1 <= indicador_seguranca_alimentar r / 100)%Q.
    { apply Qle_shift_div_l; [reflexivity|]. specialize (H r Hr). qlra. }
    qlra.
Qed.

Lemma componentes_saturam_witness :
  (comp_doencas (mkDF colunas_base [dia3]) == 1)%Q.
Proof.
  destruct (@componentes_saturam (mkDF colunas_base [dia3]))
    as (_ & _ & Hd & _); [discriminate|].
  apply Hd. intros r [<-|[]]. discriminate.
Defined.
(** *** The date axis *)

Lemma sorted_map_data (l : list Row) :
  Sorted (fun x y => (data x <= data y)%Z) l -> Sorted Z.le (map data l).
Proof.
  induction 1 as [|r l Hs IH Hh]; cbn [map]; constructor; auto.
  destruct Hh; cbn [map]; constructor; auto.
Qed.

Lemma sorted_perm_eq (l1 l2 : list Z) :
  Sorted Z.le l1 -> Sorted Z.le l2 -> Permutation l1 l2 -> l1 = l2.
Proof.
  intros S1 S2.
  apply Sorted_StronglySorted in S1; [|intros x y z; lia].
  apply Sorted_StronglySorted in S2; [|intros x y z; lia].
  revert l2 S2. induction S1 as [|a t1 St1 IH Ha]; intros l2 S2 P.
  - apply Permutation_nil in P. now subst.
  - destruct S2 as [|b t2 St2 Hb].
    + apply Permutation_sym, Permutation_nil in P. discriminate.
    + assert (Hab : a = b).
      { assert (Ia : In a (b :: t2))
          by (eapply Permutation_in; [exact P | now left]).
        assert (Ib : In b (a :: t1))
          by (eapply Permutation_in;
              [apply Permutation_sym; exact P | now left]).
        rewrite Forall_forall in Ha, Hb.
        destruct Ia as [Ea|Ia]; [now subst|].
        destruct Ib as [Eb|Ib]; [now subst|].
        specialize (Ha b Ib). specialize (Hb a Ia). lia. }
      subst b. f_equal. apply IH; [exact St2|].
      eapply Permutation_cons_inv; exact P.
Qed.

(** X15.  The date axis of the line chart is the sorted list of the
    dates of the view, and it depends on the records only, not on
    their order in the view: two views with the same records in
    different orders give the same axis. *)
Theorem eixo_das_datas (v v' : DataFrame) :
  Permutation (rows v) (rows v') ->
  Sorted Z.le (map data (rows (sort_values_data v)))
  /\ Permutation (map data (rows v)) (map data (rows (sort_values_data v)))
  /\ map data (rows (sort_values_data v))
     = map data (rows (sort_values_data v')).
Proof.
  intros P. cbn [rows sort_values_data].
  split; [apply sorted_map_data, sort_rows_sorted|].
  split; [apply Permutation_map, sort_rows_perm|].
  apply sorted_perm_eq.
  - apply sorted_map_data, sort_rows_sorted.
  - apply sorted_map_data, sort_rows_sorted.
  - apply Permutation_map.
    rewrite <- (sort_rows_perm (rows v)), <- (sort_rows_perm (rows v')).
    exact P.
Qed.

Lemma eixo_das_datas_witness :
  map data (rows (sort_values_data tres_dias))
  = map data
      (rows (sort_values_data (mkDF colunas_base [dia3; dia1; dia2]))).
Proof.
  apply (@eixo_das_datas tres_dias (mkDF colunas_base [dia3; dia1; dia2])).
  cbn [rows tres_dias].
  apply Permutation_sym.
  apply (@Permutation_cons_app _ [dia1; dia2] [dia1; dia2] [] dia3).
  apply Permutation_refl.
Defined.
